(** * Uber-Clone backend: the user controller

    A shallow embedding of
    [Uber-Clone/backend/controllers/user.controller.js]: the four Express
    handlers [registerUser], [loginUser], [getUserProfile] and [logoutUser],
    run over an explicit document store, a per-request response object and
    a log of the calls the handler makes.  Every call that can reject or
    throw in the JavaScript is a step that may fail here, and the
    [try { ... } catch (error) { ... }] around each handler is [try_catch]. *)

From Stdlib Require Import Ascii String List.
From stdpp Require Import base option list strings gmap.

Local Open Scope string_scope.
Local Open Scope list_scope.

(** ** Values that cross the controller's interface *)

(** What a [throw] or a rejected promise carries. *)
Inductive exn : Type :=
| TypeError (msg : string)
| Rejected (reason : string).

(** A stored user (the [user] collection): identifier, full name, unique
    email and the hashed password. *)
Record user_record : Type := {
  u_id : string;
  u_fullname : string;
  u_email : string;
  u_password : string
}.

(** A user document as a query hands it to the controller; [d_password] is
    [None] when the projection left the field out. *)
Record user_doc : Type := {
  d_id : string;
  d_fullname : string;
  d_email : string;
  d_password : option string
}.

(** One entry of [errors.array()]. *)
Record validation_error : Type := {
  ve_path : string;
  ve_msg : string
}.

(** [req.body] of the register and login routes. *)
Record body : Type := {
  fullname : string;
  email : string;
  password : string
}.

(** The Express request, as far as the controller reads it.  [req_body],
    [req_cookies] and [req_user] are [None] when the middleware that fills
    them did not (the property is [undefined]); [req_validation] is what
    [validationResult(req).array()] yields; header names are lower-case as
    Node delivers them. *)
Record request : Type := {
  req_validation : list validation_error;
  req_body : option body;
  req_cookies : option (gmap string string);
  req_headers : gmap string string;
  req_user : option user_doc
}.

(** The argument of [res.json]. *)
Inductive json_body : Type :=
| JErrors (errors : list validation_error)
| JMessage (message : string)
| JTokenUser (token : string) (user : user_doc)
| JUser (user : user_doc).

(** The Express response: status code (200 until [res.status] sets it), the
    body once [res.json] has sent it, and the cookies cleared. *)
Record response : Type := {
  res_status : nat;
  res_body : option json_body;
  res_cleared : list string
}.

(** The document store: the user collection and the blacklisted tokens. *)
Record db : Type := {
  users : list user_record;
  blacklist : list string
}.

(** The calls a handler makes, in the order it makes them. *)
Inductive event : Type :=
| CallUserExists (email : string)
| CallHashPassword (password : string)
| CallCreateUser (fullname email password : string)
| CallFindOne (email : string)
| CallComparePassword (user : user_doc) (password : string)
| CallGenerateAuthToken (user : user_doc)
| CallBlacklistExists (token : string)
| CallBlacklistCreate (token : string)
| CallFindById (id : string)
| ClearCookie (name : string)
| ConsoleError (label : string) (error : exn).

Record world : Type := {
  w_db : db;
  w_log : list event;
  w_res : response
}.

(** ** The handler monad: state and exceptions *)

Inductive outcome (A : Type) : Type :=
| Returned (a : A)
| Thrown (e : exn).
Arguments Returned {A} a.
Arguments Thrown {A} e.

Definition M (A : Type) : Type := world -> outcome A * world.

Definition ret {A : Type} (a : A) : M A := fun w => (Returned a, w).

Definition bind {A B : Type} (m : M A) (k : A -> M B) : M B :=
  fun w =>
    match m w with
    | (Returned a, w') => k a w'
    | (Thrown e, w') => (Thrown e, w')
    end.

Definition throw {A : Type} (e : exn) : M A := fun w => (Thrown e, w).

(** [try { body } catch (error) { handler }]. *)
Definition try_catch {A : Type} (body : M A) (handler : exn -> M A) : M A :=
  fun w =>
    match body w with
    | (Returned a, w') => (Returned a, w')
    | (Thrown e, w') => handler e w'
    end.

Declare Scope handler_scope.
Delimit Scope handler_scope with handler.
Notation "x <- m ;; k" := (bind m (fun x => k))
  (at level 100, m at next level, right associativity) : handler_scope.
Notation "m ;; k" := (bind m (fun _ => k))
  (at level 100, right associativity) : handler_scope.
Bind Scope handler_scope with M.
Local Open Scope handler_scope.

(** ** JavaScript expressions the controller uses *)

(** [s.split(sep)] for a one-character separator: the pieces between the
    occurrences of [sep], empty pieces included. *)
Fixpoint split (sep : ascii) (s : string) : list string :=
  match s with
  | EmptyString => [EmptyString]
  | String c rest =>
      if Ascii.eqb c sep then EmptyString :: split sep rest
      else match split sep rest with
           | [] => [String c EmptyString]
           | piece :: pieces => String c piece :: pieces
           end
  end.

(** Truthiness of a value that is a string or [undefined]. *)
Definition truthy (v : option string) : bool :=
  match v with
  | Some s => negb (String.eqb s "")
  | None => false
  end.

(** [a || b]. *)
Definition js_or (a b : option string) : option string :=
  if truthy a then a else b.

(** [req.headers.authorization?.split(" ")[1]]. *)
Definition bearer_component (headers : gmap string string) : option string :=
  match headers !! "authorization" with
  | Some authorization => split " "%char authorization !! 1%nat
  | None => None
  end.

(** [cookies.token || req.headers.authorization?.split(" ")[1]], line 120. *)
Definition logout_token (cookies headers : gmap string string) : option string :=
  js_or (cookies !! "token") (bearer_component headers).

(** The default projection of the user schema leaves the password out;
    [.select("+password")] puts it back (line 65). *)
Definition to_doc (with_password : bool) (u : user_record) : user_doc :=
  {| d_id := u_id u;
     d_fullname := u_fullname u;
     d_email := u_email u;
     d_password := if with_password then Some (u_password u) else None |}.

(** ** What the controller imports

    [models/user.model.js], [models/blacklisted-token.model.js] and
    [services/user.service.js] lie outside the controller.  The
    functions they define are taken as parameters: how a password is hashed
    and compared, which token is signed for a user, which identifier a new
    document gets, and which calls fail (a rejected promise or a throw) in
    the run under consideration. *)
Class Externals : Type := {
  hash_of : string -> string;
  password_matches : user_doc -> string -> bool;
  token_for : user_doc -> string;
  new_id : list user_record -> string;
  fails : event -> option exn
}.

Section Primitives.
Context `{Externals}.

Definition log (e : event) : M unit :=
  fun w => (Returned tt, {| w_db := w_db w; w_log := w_log w ++ [e]; w_res := w_res w |}).

(** A call into a model or service: it is logged, then either fails as
    [fails] says, leaving the store as it was, or runs [op] on the store. *)
Definition call {A : Type} (e : event) (op : db -> A * db) : M A :=
  log e ;;
  match fails e with
  | Some x => throw x
  | None =>
      fun w =>
        let (a, d) := op (w_db w) in
        (Returned a, {| w_db := d; w_log := w_log w; w_res := w_res w |})
  end.

(** Reading a property of [undefined] throws a [TypeError]. *)
Definition defined {A : Type} (what : string) (v : option A) : M A :=
  match v with
  | Some a => ret a
  | None => throw (TypeError what)
  end.
End Primitives.

(** [validationResult(req)] of express-validator, as its [array()]. *)
Definition validationResult (req : request) : list validation_error :=
  req_validation req.

(** [errors.isEmpty()]. *)
Definition isEmpty (errors : list validation_error) : bool :=
  match errors with
  | [] => true
  | _ :: _ => false
  end.

Definition has_email (e : string) (u : user_record) : bool := String.eqb (u_email u) e.
Definition has_id (i : string) (u : user_record) : bool := String.eqb (u_id u) i.

(** The stored user a query by email finds: the first one with that email. *)
Definition stored_user (d : db) (e : string) : option user_record :=
  find (has_email e) (users d).

(** The stored user a query by identifier finds. *)
Definition stored_user_by_id (d : db) (i : string) : option user_record :=
  find (has_id i) (users d).

(** Whether a token is in the blacklist collection. *)
Definition blacklisted (d : db) (token : string) : option string :=
  find (String.eqb token) (blacklist d).

Module res.
(** [res.status(code)]. *)
Definition status (code : nat) : M unit :=
  fun w =>
    (Returned tt,
     {| w_db := w_db w; w_log := w_log w;
        w_res := {| res_status := code;
                    res_body := res_body (w_res w);
                    res_cleared := res_cleared (w_res w) |} |}).

(** [res.json(payload)]. *)
Definition json (payload : json_body) : M unit :=
  fun w =>
    (Returned tt,
     {| w_db := w_db w; w_log := w_log w;
        w_res := {| res_status := res_status (w_res w);
                    res_body := Some payload;
                    res_cleared := res_cleared (w_res w) |} |}).

(** [res.clearCookie(name)]. *)
Definition clearCookie (name : string) : M unit :=
  fun w =>
    (Returned tt,
     {| w_db := w_db w; w_log := w_log w ++ [ClearCookie name];
        w_res := {| res_status := res_status (w_res w);
                    res_body := res_body (w_res w);
                    res_cleared := res_cleared (w_res w) ++ [name] |} |}).
End res.

Module console.
Section Console.
Context `{Externals}.
(** [console.error(label, error)]. *)
Definition error (label : string) (e : exn) : M unit := log (ConsoleError label e).
End Console.
End console.

Module userModel.
Section UserModel.
Context `{Externals}.

(** Modelled from the spec: [userModel.exists({ email })], the
    existence check on the user collection: the identifier of a stored
    user with that email, or [null]. *)
Definition exists_ (e : string) : M (option string) :=
  call (CallUserExists e) (fun d => (u_id <$> stored_user d e, d)).

(** [userModel.hashPassword(password)]. *)
Definition hashPassword (pw : string) : M string :=
  call (CallHashPassword pw) (fun d => (hash_of pw, d)).

(** Modelled from the spec: [userModel.findOne({ email }).select("+password")],
    the stored user with that email, password field included, or [null]. *)
Definition findOne_select_password (e : string) : M (option user_doc) :=
  call (CallFindOne e) (fun d => (to_doc true <$> stored_user d e, d)).

(** Modelled from the spec: [userModel.findById(id)], the stored user
    with that identifier under the default projection, or [null]. *)
Definition findById (i : string) : M (option user_doc) :=
  call (CallFindById i) (fun d => (to_doc false <$> stored_user_by_id d i, d)).

(** [user.comparePassword(password)]. *)
Definition comparePassword (user : user_doc) (pw : string) : M bool :=
  call (CallComparePassword user pw) (fun d => (password_matches user pw, d)).

(** [user.generateAuthToken()]. *)
Definition generateAuthToken (user : user_doc) : M string :=
  call (CallGenerateAuthToken user) (fun d => (token_for user, d)).
End UserModel.
End userModel.

Module userService.
Section UserService.
Context `{Externals}.

(** The record [createUser] inserts. *)
Definition new_user (d : db) (fn e pw : string) : user_record :=
  {| u_id := new_id (users d); u_fullname := fn; u_email := e; u_password := pw |}.

(** Modelled from the spec: [userService.createUser({ fullname, email,
    password })] of [services/user.service.js], which is missing here.
    It persists the user (one insert into the user collection) and
    hands back the user object without its password field. *)
Definition createUser (fn e pw : string) : M user_doc :=
  call (CallCreateUser fn e pw)
       (fun d =>
          let u := new_user d fn e pw in
          (to_doc false u, {| users := users d ++ [u]; blacklist := blacklist d |})).
End UserService.
End userService.

Module blacklistedTokenModel.
Section BlacklistedTokenModel.
Context `{Externals}.

(** Modelled from the spec: [blacklistedTokenModel.exists({ token })],
    membership of the token in the blacklist collection. *)
Definition exists_ (token : string) : M (option string) :=
  call (CallBlacklistExists token) (fun d => (blacklisted d token, d)).

(** Modelled from the spec: [blacklistedTokenModel.create({ token })],
    one insert into the blacklist collection.  The entry's creation time
    is not kept; that the store drops entries when they expire is [expire]
    below. *)
Definition create (token : string) : M unit :=
  call (CallBlacklistCreate token)
       (fun d => (tt, {| users := users d; blacklist := blacklist d ++ [token] |})).
End BlacklistedTokenModel.
End blacklistedTokenModel.

(** ** The controller *)

Section Controller.
Context `{Externals}.

(** The [try] block of [registerUser], lines 13-41. *)
Definition registerUser_try (req : request) : M unit :=
  let errors := validationResult req in
  if negb (isEmpty errors) then
    res.status 400 ;; res.json (JErrors errors)
  else
    b <- defined "req.body" (req_body req) ;;
    doesUserExist <- userModel.exists_ (email b) ;;
    match doesUserExist with
    | Some _ =>
        res.status 400 ;; res.json (JMessage "User with this email already exists")
    | None =>
        hashedPassword <- userModel.hashPassword (password b) ;;
        user <- userService.createUser (fullname b) (email b) hashedPassword ;;
        token <- userModel.generateAuthToken user ;;
        res.status 201 ;; res.json (JTokenUser token user)
    end.

(** The [catch] block every handler ends with. *)
Definition internal_server_error (label : string) (error : exn) : M unit :=
  console.error label error ;;
  res.status 500 ;; res.json (JMessage "Internal server error").

Definition registerUser (req : request) : M unit :=
  try_catch (registerUser_try req) (internal_server_error "Error registering user:").

(** The [try] block of [loginUser], lines 55-87. *)
Definition loginUser_try (req : request) : M unit :=
  let errors := validationResult req in
  if negb (isEmpty errors) then
    res.status 400 ;; res.json (JErrors errors)
  else
    b <- defined "req.body" (req_body req) ;;
    found <- userModel.findOne_select_password (email b) ;;
    match found with
    | None => res.status 401 ;; res.json (JMessage "Invalid email")
    | Some user =>
        isMatch <- userModel.comparePassword user (password b) ;;
        if negb isMatch then
          res.status 401 ;; res.json (JMessage "Invalid password")
        else
          token <- userModel.generateAuthToken user ;;
          isBlacklisted <- blacklistedTokenModel.exists_ token ;;
          match isBlacklisted with
          | Some _ =>
              res.status 401 ;;
              res.json (JMessage "Token is blacklisted, please login again")
          | None => res.status 200 ;; res.json (JTokenUser token user)
          end
    end.

Definition loginUser (req : request) : M unit :=
  try_catch (loginUser_try req) (internal_server_error "Error logging in user:").

(** The [try] block of [getUserProfile], lines 101-105. *)
Definition getUserProfile_try (req : request) : M unit :=
  authenticated <- defined "req.user" (req_user req) ;;
  found <- userModel.findById (d_id authenticated) ;;
  match found with
  | None => res.status 404 ;; res.json (JMessage "User not found")
  | Some user => res.status 200 ;; res.json (JUser user)
  end.

Definition getUserProfile (req : request) : M unit :=
  try_catch (getUserProfile_try req) (internal_server_error "Error getting user profile:").

(** The [try] block of [logoutUser], lines 119-130.  [!token] holds of
    [undefined] and of the empty string. *)
Definition logoutUser_try (req : request) : M unit :=
  cookies <- defined "req.cookies" (req_cookies req) ;;
  let token := logout_token cookies (req_headers req) in
  match token with
  | Some t =>
      if String.eqb t "" then
        res.status 401 ;; res.json (JMessage "Unauthorised")
      else
        blacklistedTokenModel.create t ;;
        res.clearCookie "token" ;;
        res.status 200 ;; res.json (JMessage "User logged out successfully")
  | None => res.status 401 ;; res.json (JMessage "Unauthorised")
  end.

Definition logoutUser (req : request) : M unit :=
  try_catch (logoutUser_try req) (internal_server_error "Error logging out user:").

(** One request: the handler runs on the store as it is, with a response
    object of its own and an empty log.  [serve] runs it from its first
    line to its answer with nothing else touching the store meanwhile;
    what another request can do while this one awaits is
    [registerUser_raced] below. *)
Definition fresh_response : response :=
  {| res_status := 200; res_body := None; res_cleared := [] |}.

Definition serve (handler : request -> M unit) (req : request) (d : db)
  : outcome unit * world :=
  handler req {| w_db := d; w_log := []; w_res := fresh_response |}.
End Controller.

(** ** Reading off what a request did *)

Definition outcome_of (r : outcome unit * world) : outcome unit := fst r.
Definition status_of (r : outcome unit * world) : nat := res_status (w_res (snd r)).
Definition body_of (r : outcome unit * world) : option json_body := res_body (w_res (snd r)).
Definition cleared_of (r : outcome unit * world) : list string := res_cleared (w_res (snd r)).
Definition db_of (r : outcome unit * world) : db := w_db (snd r).
Definition log_of (r : outcome unit * world) : list event := w_log (snd r).

(** No step of a [try] block throws on this request and store. *)
Definition completes (try_block : request -> M unit) (req : request) (d : db) : Prop :=
  outcome_of (serve try_block req d) = Returned tt.

Definition is_hashPassword (e : event) : bool :=
  match e with CallHashPassword _ => true | _ => false end.
Definition is_createUser (e : event) : bool :=
  match e with CallCreateUser _ _ _ => true | _ => false end.
Definition is_generateAuthToken (e : event) : bool :=
  match e with CallGenerateAuthToken _ => true | _ => false end.
Definition is_blacklist_create (e : event) : bool :=
  match e with CallBlacklistCreate _ => true | _ => false end.

(** A call of the given kind is in the log. *)
Definition invoked (kind : event -> bool) (l : list event) : bool := existsb kind l.

(** ** The token of a logout request, in the words of the specification *)

Definition is_whitespace (c : ascii) : bool :=
  match nat_of_ascii c with
  | 9 | 10 | 11 | 12 | 13 | 32 => true
  | _ => false
  end.

(** The pieces of [s] between whitespace characters, empty ones included. *)
Fixpoint whitespace_pieces (s : string) : list string :=
  match s with
  | EmptyString => [EmptyString]
  | String c rest =>
      if is_whitespace c then EmptyString :: whitespace_pieces rest
      else match whitespace_pieces rest with
           | [] => [String c EmptyString]
           | piece :: pieces => String c piece :: pieces
           end
  end.

(** The whitespace-separated components of [s]. *)
Definition whitespace_components (s : string) : list string :=
  List.filter (fun piece => negb (String.eqb piece "")) (whitespace_pieces s).

(** As the specification words it: the [token] cookie when the request has
    one, and only without it the second whitespace-separated component of
    the Authorization header. *)
Definition spec_logout_token (cookies headers : gmap string string) : option string :=
  match cookies !! "token" with
  | Some cookie => Some cookie
  | None =>
      match headers !! "authorization" with
      | Some authorization => whitespace_components authorization !! 1%nat
      | None => None
      end
  end.

(** ** A concrete deployment, to run the handlers on *)

Definition sample_externals (failing : event -> option exn) : Externals :=
  {| hash_of := fun pw => "$2b$" +:+ pw;
     password_matches := fun user pw =>
       match d_password user with
       | Some stored => String.eqb stored ("$2b$" +:+ pw)
       | None => false
       end;
     token_for := fun user => "jwt." +:+ d_id user;
     new_id := fun us => "id" +:+ String.concat "" (map (fun _ => "'") us);
     fails := failing |}.

Definition never : event -> option exn := fun _ => None.

Definition store_down : event -> option exn :=
  fun e =>
    match e with
    | CallUserExists _ | CallCreateUser _ _ _ | CallFindOne _ | CallFindById _
    | CallBlacklistExists _ | CallBlacklistCreate _ => Some (Rejected "ECONNREFUSED")
    | _ => None
    end.

Definition alice : user_record :=
  {| u_id := "id"; u_fullname := "Alice"; u_email := "alice@example.com";
     u_password := "$2b$wonderland" |}.

Definition one_user : db := {| users := [alice]; blacklist := [] |}.
Definition empty_db : db := {| users := []; blacklist := [] |}.

Definition request_with_body (b : body) : request :=
  {| req_validation := []; req_body := Some b; req_cookies := Some ∅;
     req_headers := ∅; req_user := None |}.

Definition alice_body (pw : string) : body :=
  {| fullname := "Alice"; email := "alice@example.com"; password := pw |}.

Definition logout_request (cookie authorization : option string) : request :=
  {| req_validation := []; req_body := None;
     req_cookies := Some (match cookie with Some c => {[ "token" := c ]} | None => ∅ end);
     req_headers := match authorization with
                    | Some a => {[ "authorization" := a ]}
                    | None => ∅
                    end;
     req_user := None |}.

Definition profile_request (i : string) : request :=
  {| req_validation := []; req_body := None; req_cookies := None; req_headers := ∅;
     req_user := Some {| d_id := i; d_fullname := ""; d_email := ""; d_password := None |} |}.

(** The same request carrying other cookies and headers: whatever token
    the client submits travels in one of the two. *)
Definition with_credentials (req : request)
    (cookies : option (gmap string string)) (headers : gmap string string) : request :=
  {| req_validation := req_validation req;
     req_body := req_body req;
     req_cookies := cookies;
     req_headers := headers;
     req_user := req_user req |}.

(** The part of [s] before its first [sep] (all of [s] when it has none). *)
Fixpoint before (sep : ascii) (s : string) : string :=
  match s with
  | EmptyString => EmptyString
  | String c rest => if Ascii.eqb c sep then EmptyString else String c (before sep rest)
  end.

(** [sep] does not occur in [s]. *)
Fixpoint free_of (sep : ascii) (s : string) : bool :=
  match s with
  | EmptyString => true
  | String c rest => negb (Ascii.eqb c sep) && free_of sep rest
  end.

(** What the [catch] block must have done: the handler returned, with
    status 500, the generic message, and the error on the console. *)
Definition answered_500 (label : string) (e : exn) (r : outcome unit * world) : Prop :=
  outcome_of r = Returned tt ∧
  status_of r = 500 ∧
  body_of r = Some (JMessage "Internal server error") ∧
  last (log_of r) = Some (ConsoleError label e).

(** A handler is its [try] block with every exception caught: it always
    returns, and answers 500 whenever a step of the block throws. *)
Definition catches_all `{Externals} (label : string)
    (try_block handler : request -> M unit) : Prop :=
  ∀ (req : request) (d : db),
    outcome_of (serve handler req d) = Returned tt ∧
    ∀ e, outcome_of (serve try_block req d) = Thrown e →
         answered_500 label e (serve handler req d).

(** ** Further notions about a run *)

(** A step of a [try] block throws on this request and store. *)
Definition throws (try_block : request -> M unit) (req : request) (d : db) : Prop :=
  ∃ e, outcome_of (serve try_block req d) = Thrown e.

(** The answer to a request that failed validation: 400 with the errors,
    sent before any model or service was called. *)
Definition rejected_as_invalid (req : request) (d : db) (r : outcome unit * world) : Prop :=
  outcome_of r = Returned tt ∧
  status_of r = 400 ∧
  body_of r = Some (JErrors (validationResult req)) ∧
  log_of r = [] ∧
  db_of r = d ∧
  cleared_of r = [].

(** No two stored users share an email. *)
Definition unique_emails (d : db) : Prop := NoDup (u_email <$> users d).

(** The store after one more user or one more blacklisted token. *)
Definition with_user (d : db) (u : user_record) : db :=
  {| users := users d ++ [u]; blacklist := blacklist d |}.
Definition with_blacklisted (d : db) (token : string) : db :=
  {| users := users d; blacklist := blacklist d ++ [token] |}.

(** [pieces.join(sep)]. *)
Definition join (sep : ascii) (pieces : list string) : string :=
  String.concat (String sep EmptyString) pieces.

(** Signing a token fails (no secret configured); everything else works. *)
Definition signer_down : event -> option exn :=
  fun e =>
    match e with
    | CallGenerateAuthToken _ => Some (Rejected "secretOrPrivateKey must have a value")
    | _ => None
    end.

Definition invalid_request : request :=
  {| req_validation := [{| ve_path := "email"; ve_msg := "Invalid Email" |}];
     req_body := Some (alice_body "pw"); req_cookies := Some ∅;
     req_headers := ∅; req_user := None |}.

Definition bare_request : request :=
  {| req_validation := []; req_body := None; req_cookies := None;
     req_headers := {[ "authorization" := "Bearer jwt.id" ]}; req_user := None |}.

(** A logout turned away: 401, the store and the cookies as they were,
    no insert attempted. *)
Definition logout_rejected (d : db) (r : outcome unit * world) : Prop :=
  status_of r = 401 ∧
  body_of r = Some (JMessage "Unauthorised") ∧
  db_of r = d ∧
  cleared_of r = [] ∧
  invoked is_blacklist_create (log_of r) = false.

(** A logout carried out for the token [t]. *)
Definition logout_done (d : db) (t : string) (r : outcome unit * world) : Prop :=
  status_of r = 200 ∧
  body_of r = Some (JMessage "User logged out successfully") ∧
  db_of r = with_blacklisted d t ∧
  cleared_of r = ["token"] ∧
  log_of r = [CallBlacklistCreate t; ClearCookie "token"].

(** ** The store over time *)

(** What happens to the store: a handler serves a request from start to
    answer, or the store drops blacklist entries that have expired. *)
Inductive store_event : Type :=
| Served (handler : request -> M unit) (req : request)
| Expired (gone : string -> bool).

(** Modelled from the spec: the store-enforced expiry of blacklisted
    tokens (the comment on line 125); the entries [gone] selects
    disappear. *)
Definition expire (gone : string -> bool) (d : db) : db :=
  {| users := users d;
     blacklist := List.filter (fun token => negb (gone token)) (blacklist d) |}.

(** The store after a sequence of events, one after the other. *)
Definition store_after (events : list store_event) (d : db) : db :=
  fold_left (fun store ev =>
               match ev with
               | Served handler req => db_of (serve handler req store)
               | Expired gone => expire gone store
               end) events d.

Definition is_expiry (ev : store_event) : bool :=
  match ev with Expired _ => true | Served _ _ => false end.

Section InFlight.
Context `{Externals}.

(** The events are requests to the four handlers and expiries. *)
Definition of_the_controller (ev : store_event) : Prop :=
  match ev with
  | Served handler _ => handler ∈ [registerUser; loginUser; getUserProfile; logoutUser]
  | Expired _ => True
  end.

(** A logout among the events took the token [t] from its request. *)
Definition logged_out (events : list store_event) (t : string) : Prop :=
  ∃ req cookies, Served logoutUser req ∈ events ∧
                 req_cookies req = Some cookies ∧
                 logout_token cookies (req_headers req) = Some t.

(** *** Two registrations in flight

    registerUser awaits the existence check (line 22) before it goes on
    to hash and insert (lines 29-35); while it waits, another request
    runs.  [registerUser_check] is the handler up to that await,
    [registerUser_resume] the handler from there on. *)
Definition registerUser_check (req : request) : M (option (body * option string)) :=
  let errors := validationResult req in
  if negb (isEmpty errors) then
    res.status 400 ;; res.json (JErrors errors) ;; ret None
  else
    b <- defined "req.body" (req_body req) ;;
    doesUserExist <- userModel.exists_ (email b) ;;
    ret (Some (b, doesUserExist)).

Definition registerUser_rest (b : body) (doesUserExist : option string) : M unit :=
  match doesUserExist with
  | Some _ =>
      res.status 400 ;; res.json (JMessage "User with this email already exists")
  | None =>
      hashedPassword <- userModel.hashPassword (password b) ;;
      user <- userService.createUser (fullname b) (email b) hashedPassword ;;
      token <- userModel.generateAuthToken user ;;
      res.status 201 ;; res.json (JTokenUser token user)
  end.

Definition registerUser_resume (checked : outcome (option (body * option string)))
  : M unit :=
  try_catch match checked with
            | Returned None => ret tt
            | Returned (Some (b, doesUserExist)) => registerUser_rest b doesUserExist
            | Thrown x => throw x
            end
            (internal_server_error "Error registering user:").

(** The request goes on, on the store as it is by then. *)
Definition on_store (d : db) (w : world) : world :=
  {| w_db := d; w_log := w_log w; w_res := w_res w |}.

Definition fresh (d : db) : world :=
  {| w_db := d; w_log := []; w_res := fresh_response |}.

(** Two registrations, the existence check of the second running before
    the first goes on: A checks, B checks, A finishes, B finishes.  Each
    has its response and log; the store is shared. *)
Definition registerUser_raced (reqA reqB : request) (d : db)
  : (outcome unit * world) * (outcome unit * world) :=
  let (checkedA, wA) := registerUser_check reqA (fresh d) in
  let (checkedB, wB) := registerUser_check reqB (fresh (w_db wA)) in
  let rA := registerUser_resume checkedA (on_store (w_db wB) wA) in
  let rB := registerUser_resume checkedB (on_store (db_of rA) wB) in
  (rA, rB).
End InFlight.

Definition bob_body : body :=
  {| fullname := "Bob"; email := "alice@example.com"; password := "builder" |}.

Definition alice_logged_out : db := {| users := [alice]; blacklist := ["jwt.id"] |}.

(** * Properties *)

Section Properties.
Context `{Externals}.

Implicit Types (req : request) (d : db) (b : body) (u : user_record).

(** ** Lookups in the store *)

Lemma stored_user_Some d e u :
  stored_user d e = Some u → u ∈ users d ∧ u_email u = e.
Proof.
  unfold stored_user. intros Hfind. apply find_some in Hfind as [Hin Heq].
  split; [by apply list_elem_of_In|]. by apply String.eqb_eq.
Qed.

Lemma stored_user_None d e :
  stored_user d e = None ↔ ∀ u, u ∈ users d → u_email u ≠ e.
Proof.
  unfold stored_user. split.
  - intros Hfind u Hin Heq.
    pose proof (find_none _ _ Hfind u (proj1 (list_elem_of_In _ _) Hin)) as Hno.
    unfold has_email in Hno. apply String.eqb_neq in Hno. done.
  - intros Hall. destruct (find _ _) as [u|] eqn:Hfind; [|done].
    apply find_some in Hfind as [Hin Heq]. apply String.eqb_eq in Heq.
    exfalso. eapply Hall; [by apply list_elem_of_In|done].
Qed.

Lemma stored_user_exists d e u :
  u ∈ users d → u_email u = e → ∃ u', stored_user d e = Some u'.
Proof.
  intros Hin Heq. destruct (stored_user d e) as [u'|] eqn:Hfind; [by eexists|].
  exfalso. by eapply stored_user_None.
Qed.

Lemma blacklisted_None d token :
  blacklisted d token = None ↔ token ∉ blacklist d.
Proof.
  unfold blacklisted. split.
  - intros Hfind Hin. apply list_elem_of_In in Hin.
    pose proof (find_none _ _ Hfind token Hin) as Hno.
    by rewrite String.eqb_refl in Hno.
  - intros Hnotin. destruct (find _ _) as [t|] eqn:Hfind; [|done].
    apply find_some in Hfind as [Hin Heq]. apply String.eqb_eq in Heq. subst t.
    exfalso. apply Hnotin. by apply list_elem_of_In.
Qed.

Lemma stored_user_by_id_Some d i u :
  stored_user_by_id d i = Some u → u ∈ users d ∧ u_id u = i.
Proof.
  unfold stored_user_by_id. intros Hfind. apply find_some in Hfind as [Hin Heq].
  split; [by apply list_elem_of_In|]. by apply String.eqb_eq.
Qed.

Lemma stored_user_by_id_None d i :
  stored_user_by_id d i = None ↔ ∀ u, u ∈ users d → u_id u ≠ i.
Proof.
  split.
  - unfold stored_user_by_id. intros Hfind u Hin Heq.
    pose proof (find_none _ _ Hfind u (proj1 (list_elem_of_In _ _) Hin)) as Hno.
    unfold has_id in Hno. apply String.eqb_neq in Hno. done.
  - intros Hall. destruct (stored_user_by_id d i) as [u|] eqn:Hfind; [|done].
    apply stored_user_by_id_Some in Hfind as [Hin Heq].
    exfalso. by eapply Hall.
Qed.

(** ** The catch-all *)

Lemma try_catch_internal_server_error (m : M unit) label w :
  let r := try_catch m (internal_server_error label) w in
  outcome_of r = Returned tt ∧
  ∀ e, outcome_of (m w) = Thrown e → answered_500 label e r.
Proof.
  unfold try_catch, answered_500, outcome_of, status_of, body_of, log_of.
  destruct (m w) as [[[]|e] w'] eqn:Hm; simpl.
  - split; [done|]. intros e He. discriminate He.
  - split; [done|]. intros e' He'. injection He' as <-.
    repeat split. apply last_snoc.
Qed.

Ltac expose :=
  unfold completes, serve, outcome_of, status_of, body_of, cleared_of, db_of, log_of,
    registerUser, registerUser_try, loginUser, loginUser_try,
    getUserProfile, getUserProfile_try, logoutUser, logoutUser_try,
    internal_server_error, console.error, validationResult,
    userModel.exists_, userModel.hashPassword, userModel.findOne_select_password,
    userModel.findById, userModel.comparePassword, userModel.generateAuthToken,
    userService.createUser, blacklistedTokenModel.exists_, blacklistedTokenModel.create,
    call, log, defined, res.status, res.json, res.clearCookie,
    try_catch, bind, ret, throw in *.

Ltac failure_case :=
  match goal with
  | |- context [fails ?e] =>
      let F := fresh "Hfails" in destruct (fails e) eqn:F; simpl in *
  end.

(** When no call fails and the middleware has filled in what the handler
    reads, no step of the try block throws. *)
Lemma nothing_fails_completes req d :
  (∀ e, fails e = None) →
  (validationResult req = [] → is_Some (req_body req)) →
  is_Some (req_cookies req) →
  is_Some (req_user req) →
  completes registerUser_try req d ∧ completes loginUser_try req d ∧
  completes getUserProfile_try req d ∧ completes logoutUser_try req d.
Proof.
  intros Hnone Hbody [cookies Hcookies] [authenticated Huser].
  split_and!; expose.
  - destruct (req_validation req); simpl; [|done].
    destruct Hbody as [b ->]; [done|]. simpl.
    rewrite Hnone. simpl. destruct (stored_user d (email b)); simpl; [done|].
    by rewrite !Hnone.
  - destruct (req_validation req); simpl; [|done].
    destruct Hbody as [b ->]; [done|]. simpl.
    rewrite Hnone. simpl. destruct (stored_user d (email b)); simpl; [|done].
    rewrite Hnone. simpl. destruct (password_matches _ _); simpl; [|done].
    rewrite !Hnone. simpl. by destruct (blacklisted d _).
  - rewrite Huser. simpl. rewrite Hnone. simpl.
    by destruct (stored_user_by_id d _).
  - rewrite Hcookies. simpl.
    destruct (logout_token cookies (req_headers req)) as [t|]; simpl; [|done].
    destruct (String.eqb t ""); simpl; [done|]. by rewrite Hnone.
Qed.

(** C8: every handler is its try block wrapped in a catch-all.  Whatever
    the request and the store, the handler returns (no exception leaves
    it), and whenever a step of the try block throws, the response has
    status 500 with the message "Internal server error" and the error is
    logged. *)
Theorem handlers_catch_every_exception :
  catches_all "Error registering user:" registerUser_try registerUser ∧
  catches_all "Error logging in user:" loginUser_try loginUser ∧
  catches_all "Error getting user profile:" getUserProfile_try getUserProfile ∧
  catches_all "Error logging out user:" logoutUser_try logoutUser.
Proof.
  repeat apply conj; intros req d; apply try_catch_internal_server_error.
Qed.

(** C1: a registration request whose email is already in the user store
    leaves the store unchanged and invokes neither hashPassword nor
    createUser; when no step throws, it is answered with status 400 and a
    message: the duplicate-email message when validation passed, the
    validation errors otherwise. *)
Theorem registerUser_existing_email req b u d :
  req_body req = Some b →
  u ∈ users d →
  u_email u = email b →
  let r := serve registerUser req d in
  db_of r = d ∧
  invoked is_hashPassword (log_of r) = false ∧
  invoked is_createUser (log_of r) = false ∧
  (completes registerUser_try req d →
   status_of r = 400 ∧
   body_of r = Some (if isEmpty (validationResult req)
                     then JMessage "User with this email already exists"
                     else JErrors (validationResult req))).
Proof.
  intros Hbody Hin Hemail.
  destruct (stored_user_exists d (email b) u Hin Hemail) as [u' Hstored].
  expose. rewrite Hbody.
  destruct (isEmpty (req_validation req)); simpl; [|by destruct d].
  failure_case; [by destruct d|].
  rewrite Hstored. simpl. by destruct d.
Qed.

(** C2: a registration request that passes validation, whose email is not
    yet in the user store and on which no step throws: the controller
    asks for the email, hashes the password, creates the user with the
    hash and signs a token, in that order; the store gains exactly the new
    user, whose stored password is the hash; the answer is 201 with the
    token and the created user, and that user object carries no password
    field. *)
Theorem registerUser_new_email req b d :
  validationResult req = [] →
  req_body req = Some b →
  (∀ u, u ∈ users d → u_email u ≠ email b) →
  completes registerUser_try req d →
  let r := serve registerUser req d in
  let hashed := hash_of (password b) in
  let stored := userService.new_user d (fullname b) (email b) hashed in
  let user := to_doc false stored in
  log_of r = [CallUserExists (email b); CallHashPassword (password b);
              CallCreateUser (fullname b) (email b) hashed;
              CallGenerateAuthToken user] ∧
  db_of r = {| users := users d ++ [stored]; blacklist := blacklist d |} ∧
  u_password stored = hashed ∧
  status_of r = 201 ∧
  body_of r = Some (JTokenUser (token_for user) user) ∧
  d_password user = None.
Proof.
  intros Hvalid Hbody Hfresh. apply stored_user_None in Hfresh.
  expose. rewrite Hvalid, Hbody. simpl.
  failure_case; [done|]. rewrite Hfresh. simpl.
  failure_case; [done|].
  failure_case; [done|].
  failure_case; [done|].
  by destruct d.
Qed.

(** C3: a login request that passes validation is never answered 200 and
    never has a token generated when no user has the given email, or when
    the user found does not match the supplied password; when no step
    throws, the answer is 401, "Invalid email" in the first case and
    "Invalid password" in the second. *)
Theorem loginUser_rejects_bad_credentials req b d :
  validationResult req = [] →
  req_body req = Some b →
  (∀ u, u ∈ users d → u_email u ≠ email b) ∨
  (∃ u, stored_user d (email b) = Some u ∧
        password_matches (to_doc true u) (password b) = false) →
  let r := serve loginUser req d in
  invoked is_generateAuthToken (log_of r) = false ∧
  status_of r ≠ 200 ∧
  db_of r = d ∧
  (completes loginUser_try req d →
   status_of r = 401 ∧
   body_of r = Some (JMessage (match stored_user d (email b) with
                               | None => "Invalid email"
                               | Some _ => "Invalid password"
                               end))).
Proof.
  intros Hvalid Hbody Hbad.
  expose. rewrite Hvalid, Hbody. simpl.
  failure_case; [by destruct d|].
  destruct Hbad as [Hnone|(u & Hstored & Hmismatch)].
  - apply stored_user_None in Hnone. rewrite Hnone. simpl. by destruct d.
  - rewrite Hstored. simpl.
    failure_case; [by destruct d|].
    rewrite Hmismatch. simpl. by destruct d.
Qed.

(** C4: on a login with valid credentials on which no step throws, the
    controller finds the user, compares the password, generates a token
    and then asks the blacklist about exactly that token; and whatever
    cookies and headers a login request carries, the run is the same, so
    no token submitted by the client is ever looked at. *)
Theorem loginUser_checks_generated_token req b u d :
  validationResult req = [] →
  req_body req = Some b →
  stored_user d (email b) = Some u →
  password_matches (to_doc true u) (password b) = true →
  completes loginUser_try req d →
  let user := to_doc true u in
  log_of (serve loginUser req d) =
    [CallFindOne (email b); CallComparePassword user (password b);
     CallGenerateAuthToken user; CallBlacklistExists (token_for user)] ∧
  ∀ cookies headers,
    serve loginUser (with_credentials req cookies headers) d = serve loginUser req d.
Proof.
  intros Hvalid Hbody Hstored Hmatch Hcompletes user. subst user.
  split; [|done].
  revert Hcompletes. expose. rewrite Hvalid, Hbody. simpl.
  failure_case; [done|]. rewrite Hstored. simpl.
  failure_case; [done|]. rewrite Hmatch. simpl.
  failure_case; [done|].
  failure_case; [done|].
  by destruct (blacklisted d _).
Qed.

(** C5: when no token the signer can produce is in the blacklist, no
    login is answered "Token is blacklisted", and a login with valid
    credentials on which no step throws is answered 200 with the freshly
    generated token and the user. *)
Theorem loginUser_blacklist_branch_unreachable req d :
  (∀ user, token_for user ∉ blacklist d) →
  let r := serve loginUser req d in
  body_of r ≠ Some (JMessage "Token is blacklisted, please login again") ∧
  ∀ b u,
    validationResult req = [] →
    req_body req = Some b →
    stored_user d (email b) = Some u →
    password_matches (to_doc true u) (password b) = true →
    completes loginUser_try req d →
    status_of r = 200 ∧
    body_of r = Some (JTokenUser (token_for (to_doc true u)) (to_doc true u)).
Proof.
  intros Hunique.
  assert (Hmiss : ∀ user, blacklisted d (token_for user) = None)
    by (intros user; by apply blacklisted_None).
  split.
  - expose. destruct (isEmpty (req_validation req)); simpl; [|done].
    destruct (req_body req) as [b|]; simpl; [|done].
    failure_case; [done|].
    destruct (stored_user d (email b)) as [u|]; simpl; [|done].
    failure_case; [done|].
    destruct (password_matches _ _); simpl; [|done].
    failure_case; [done|].
    failure_case; [done|].
    by rewrite Hmiss.
  - intros b u Hvalid Hbody Hstored Hmatch.
    expose. rewrite Hvalid, Hbody. simpl.
    failure_case; [done|]. rewrite Hstored. simpl.
    failure_case; [done|]. rewrite Hmatch. simpl.
    failure_case; [done|].
    failure_case; [done|].
    by rewrite Hmiss.
Qed.

(** What logoutUser does with the value of line 120: a logout request
    (with its cookies parsed) from which the controller gets no token is
    answered 401 and leaves the store and the cookies untouched; one from
    which it gets a token has, when no step throws, that token appended to
    the blacklist, the "token" cookie cleared, and is answered 200. *)
Lemma logoutUser_blacklists_token req cookies d :
  req_cookies req = Some cookies →
  let r := serve logoutUser req d in
  let token := logout_token cookies (req_headers req) in
  (cookies !! "token" = None → req_headers req !! "authorization" = None →
   truthy token = false) ∧
  (truthy token = false →
   status_of r = 401 ∧ body_of r = Some (JMessage "Unauthorised") ∧
   db_of r = d ∧ cleared_of r = [] ∧
   invoked is_blacklist_create (log_of r) = false) ∧
  (∀ t, token = Some t → t ≠ "" →
        completes logoutUser_try req d →
        status_of r = 200 ∧
        body_of r = Some (JMessage "User logged out successfully") ∧
        db_of r = {| users := users d; blacklist := blacklist d ++ [t] |} ∧
        cleared_of r = ["token"] ∧
        log_of r = [CallBlacklistCreate t; ClearCookie "token"]).
Proof.
  intros Hcookies r token. subst r token. split_and!.
  - intros Hcookie Hheader. unfold logout_token, bearer_component, js_or.
    by rewrite Hcookie, Hheader.
  - intros Hfalsy. expose. rewrite Hcookies. simpl.
    destruct (logout_token cookies (req_headers req)) as [t|]; simpl in *.
    + apply negb_false_iff in Hfalsy. rewrite Hfalsy. simpl. by destruct d.
    + by destruct d.
  - intros t Htoken Hnonempty. apply String.eqb_neq in Hnonempty.
    expose. rewrite Hcookies. simpl. rewrite Htoken, Hnonempty. simpl.
    failure_case; done.
Qed.

(** C7: a profile request is answered 200, 404 or 500 and nothing else,
    and never changes the store; when the authenticated user is set and no
    step throws, it is 404 "User not found" if no stored user has the
    authenticated identifier, and 200 with that user otherwise. *)
Theorem getUserProfile_found_or_404 req d :
  let r := serve getUserProfile req d in
  (status_of r = 200 ∨ status_of r = 404 ∨ status_of r = 500) ∧
  db_of r = d ∧
  ∀ authenticated,
    req_user req = Some authenticated →
    completes getUserProfile_try req d →
    ((∀ u, u ∈ users d → u_id u ≠ d_id authenticated) →
     status_of r = 404 ∧ body_of r = Some (JMessage "User not found")) ∧
    (∀ u, stored_user_by_id d (d_id authenticated) = Some u →
          u ∈ users d ∧ u_id u = d_id authenticated ∧
          status_of r = 200 ∧ body_of r = Some (JUser (to_doc false u))).
Proof.
  intros r. subst r. split_and!.
  - expose. destruct (req_user req) as [a|]; simpl; [|tauto].
    failure_case; [tauto|].
    destruct (stored_user_by_id d (d_id a)); simpl; tauto.
  - expose. destruct (req_user req) as [a|]; simpl; [|by destruct d].
    failure_case; [by destruct d|].
    destruct (stored_user_by_id d (d_id a)); simpl; by destruct d.
  - intros a Huser. expose. rewrite Huser. simpl.
    failure_case; [done|]. intros _. split.
    + intros Hnone. apply stored_user_by_id_None in Hnone. by rewrite Hnone.
    + intros u Hfound. rewrite Hfound. simpl.
      apply stored_user_by_id_Some in Hfound as [Hin Hid]. done.
Qed.

(** C10: whenever a login is answered 200, the user in the response body
    is the stored user found by email with the password field selected, so
    the body carries the stored password hash. *)
Theorem loginUser_success_exposes_hash req d :
  status_of (serve loginUser req d) = 200 →
  ∃ b u token,
    req_body req = Some b ∧
    stored_user d (email b) = Some u ∧
    body_of (serve loginUser req d) = Some (JTokenUser token (to_doc true u)) ∧
    token = token_for (to_doc true u) ∧
    d_password (to_doc true u) = Some (u_password u).
Proof.
  expose. destruct (isEmpty (req_validation req)); simpl; [|done].
  destruct (req_body req) as [b|]; simpl; [|done].
  failure_case; [done|].
  destruct (stored_user d (email b)) as [u|] eqn:Hstored; simpl; [|done].
  failure_case; [done|].
  destruct (password_matches _ _); simpl; [|done].
  failure_case; [done|].
  failure_case; [done|].
  destruct (blacklisted d _); simpl; [done|].
  intros _. by exists b, u, (token_for (to_doc true u)).
Qed.

(** ** Splitting the Authorization header *)

Lemma split_head sep s : head (split sep s) = Some (before sep s).
Proof.
  induction s as [|c rest IH]; simpl; [done|].
  destruct (Ascii.eqb c sep); [done|].
  destruct (split sep rest) as [|piece pieces]; simpl in *; [done|].
  by injection IH as ->.
Qed.

Lemma split_free_of sep s : free_of sep s = true → split sep s = [s].
Proof.
  induction s as [|c rest IH]; simpl; [done|].
  destruct (Ascii.eqb c sep); simpl; [done|].
  intros Hfree. by rewrite (IH Hfree).
Qed.

Lemma split_at_first sep scheme rest :
  free_of sep scheme = true →
  split sep (scheme +:+ String sep rest) = scheme :: split sep rest.
Proof.
  induction scheme as [|c scheme' IH]; simpl.
  - intros _. by rewrite Ascii.eqb_refl.
  - destruct (Ascii.eqb c sep); simpl; [done|].
    intros Hfree. by rewrite (IH Hfree).
Qed.

(** C9, as the code has it: a token cookie that is present and not empty
    is the token, whatever the Authorization header says, and it is the
    token logoutUser sends to the blacklist; with the cookie absent or
    empty the token is the element at index 1 of the header split at every
    single space: for a header made of a scheme without spaces, one space
    and a rest, the part of the rest before its next space; nothing when
    the header has no space or is absent. *)
Theorem logout_token_cookie_then_header req cookies d :
  req_cookies req = Some cookies →
  let headers := req_headers req in
  (∀ c, cookies !! "token" = Some c → c ≠ "" →
        logout_token cookies headers = Some c ∧
        head (log_of (serve logoutUser req d)) = Some (CallBlacklistCreate c)) ∧
  (cookies !! "token" = None ∨ cookies !! "token" = Some "" →
   logout_token cookies headers = bearer_component headers) ∧
  (∀ scheme rest,
      headers !! "authorization" = Some (scheme +:+ " " +:+ rest) →
      free_of " " scheme = true →
      bearer_component headers = Some (before " " rest)) ∧
  (∀ authorization,
      headers !! "authorization" = Some authorization →
      free_of " " authorization = true →
      bearer_component headers = None) ∧
  (headers !! "authorization" = None → bearer_component headers = None).
Proof.
  intros Hcookies headers. subst headers. split_and!.
  - intros c Hcookie Hnonempty. apply String.eqb_neq in Hnonempty.
    assert (Htoken : logout_token cookies (req_headers req) = Some c).
    { unfold logout_token, js_or. rewrite Hcookie. simpl. by rewrite Hnonempty. }
    split; [done|].
    expose. rewrite Hcookies. simpl. rewrite Htoken, Hnonempty. simpl.
    failure_case; done.
  - unfold logout_token, js_or. by intros [-> | ->].
  - intros scheme rest Hheader Hfree. unfold bearer_component. rewrite Hheader.
    change (scheme +:+ " " +:+ rest) with (scheme +:+ String " "%char rest).
    rewrite (split_at_first _ _ _ Hfree).
    change ((scheme :: split " " rest) !! 1%nat) with (split " " rest !! 0%nat).
    rewrite <- head_lookup. apply split_head.
  - intros authorization Hheader Hfree. unfold bearer_component. rewrite Hheader.
    by rewrite (split_free_of _ _ Hfree).
  - intros Hheader. unfold bearer_component. by rewrite Hheader.
Qed.
(** Every header value has no space, or is a first word without spaces,
    one space, and a rest. *)
Lemma header_shape (a : string) :
  free_of " " a = true ∨
  ∃ scheme rest, a = scheme +:+ " " +:+ rest ∧ free_of " " scheme = true.
Proof.
  induction a as [|c a' IH]; simpl; [by left|].
  destruct (Ascii.eqb c " ") eqn:Hc.
  - apply Ascii.eqb_eq in Hc. subst c. right. by exists "", a'.
  - destruct IH as [Hfree | (scheme & rest & -> & Hfree)]; [by left|].
    right. exists (String c scheme), rest. simpl. by rewrite Hc.
Qed.

(** C6, as the code has it: for a logout request with its cookies parsed,
    a token cookie that is not empty is blacklisted, the "token" cookie is
    cleared and the answer is 200 (when no step throws).  With the cookie
    absent or empty the Authorization header decides: absent, or without
    a space, or with nothing between its first space and the next (as
    after two spaces), the answer is 401 and the store, the blacklist
    included, and the cookies are untouched; otherwise what stands between
    its first space and the next is blacklisted, the cookie cleared and the
    answer 200 (when no step throws). *)
Theorem logoutUser_by_cookie_and_header req cookies d :
  req_cookies req = Some cookies →
  let r := serve logoutUser req d in
  let authorization := req_headers req !! "authorization" in
  (∀ c, cookies !! "token" = Some c → c ≠ "" →
        completes logoutUser_try req d → logout_done d c r) ∧
  (cookies !! "token" = None ∨ cookies !! "token" = Some "" →
   (authorization = None → logout_rejected d r) ∧
   (∀ a, authorization = Some a → free_of " " a = true → logout_rejected d r) ∧
   (∀ scheme rest,
       authorization = Some (scheme +:+ " " +:+ rest) →
       free_of " " scheme = true →
       (before " " rest = "" → logout_rejected d r) ∧
       (before " " rest ≠ "" →
        completes logoutUser_try req d → logout_done d (before " " rest) r))).
Proof.
  intros Hcookies r authorization. subst r authorization.
  destruct (logoutUser_blacklists_token req cookies d Hcookies)
    as (_ & Hrejected & Hdone).
  simpl in Hrejected, Hdone.
  split.
  - intros c Hcookie Hnonempty Hcompletes. apply Hdone; [|done..].
    unfold logout_token, js_or. rewrite Hcookie. simpl.
    apply String.eqb_neq in Hnonempty. by rewrite Hnonempty.
  - intros Hcookie.
    assert (Htoken : logout_token cookies (req_headers req)
                     = bearer_component (req_headers req))
      by (unfold logout_token, js_or; by destruct Hcookie as [-> | ->]).
    rewrite Htoken in Hrejected, Hdone. unfold bearer_component in Hrejected, Hdone.
    split_and!.
    + intros Hheader. apply Hrejected. by rewrite Hheader.
    + intros a Hheader Hfree. apply Hrejected.
      by rewrite Hheader, (split_free_of _ _ Hfree).
    + intros scheme rest Hheader Hscheme.
      assert (Hcomponent : split " " (scheme +:+ " " +:+ rest) !! 1%nat
                           = Some (before " " rest)).
      { change (scheme +:+ " " +:+ rest) with (scheme +:+ String " "%char rest).
        rewrite (split_at_first _ _ _ Hscheme).
        change ((scheme :: split " " rest) !! 1%nat) with (split " " rest !! 0%nat).
        rewrite <- head_lookup. apply split_head. }
      rewrite Hheader, Hcomponent in Hrejected, Hdone. split.
      * intros Hempty. apply Hrejected. simpl. by rewrite Hempty.
      * intros Hnonempty Hcompletes. by apply Hdone.
Qed.
End Properties.

(** * The properties on concrete requests *)

Lemma registerUser_existing_email_witness :
  let E := sample_externals never in
  let req := request_with_body (alice_body "rabbit") in
  let r := serve (@registerUser E) req one_user in
  alice ∈ users one_user ∧
  completes (@registerUser_try E) req one_user ∧
  db_of r = one_user ∧
  invoked is_hashPassword (log_of r) = false ∧
  invoked is_createUser (log_of r) = false ∧
  status_of r = 400 ∧
  body_of r = Some (JMessage "User with this email already exists").
Proof.
  intros E req r.
  assert (Hin : alice ∈ users one_user) by apply list_elem_of_here.
  assert (Hcompletes : completes (@registerUser_try E) req one_user) by reflexivity.
  destruct (@registerUser_existing_email E req (alice_body "rabbit") alice one_user
              eq_refl Hin eq_refl) as (Hdb & Hhash & Hcreate & Hanswer).
  destruct (Hanswer Hcompletes) as [Hstatus Hbody].
  repeat apply conj; assumption.
Defined.

Lemma registerUser_new_email_witness :
  let E := sample_externals never in
  let req := request_with_body (alice_body "wonderland") in
  let r := serve (@registerUser E) req empty_db in
  completes (@registerUser_try E) req empty_db ∧
  db_of r = one_user ∧
  status_of r = 201 ∧
  body_of r = Some (JTokenUser "jwt.id" (to_doc false alice)).
Proof.
  intros E req r.
  assert (Hfresh : ∀ u, u ∈ users empty_db → u_email u ≠ email (alice_body "wonderland"))
    by (intros u Hin; by apply not_elem_of_nil in Hin).
  assert (Hcompletes : completes (@registerUser_try E) req empty_db) by reflexivity.
  destruct (@registerUser_new_email E req (alice_body "wonderland") empty_db
              eq_refl eq_refl Hfresh Hcompletes)
    as (Hlog & Hdb & Hstored & Hstatus & Hbody & Hhidden).
  repeat apply conj; assumption.
Defined.

Lemma loginUser_rejects_bad_credentials_witness :
  let E := sample_externals never in
  let req := request_with_body (alice_body "looking-glass") in
  let r := serve (@loginUser E) req one_user in
  stored_user one_user "alice@example.com" = Some alice ∧
  @password_matches E (to_doc true alice) "looking-glass" = false ∧
  completes (@loginUser_try E) req one_user ∧
  invoked is_generateAuthToken (log_of r) = false ∧
  status_of r = 401 ∧
  body_of r = Some (JMessage "Invalid password").
Proof.
  intros E req r.
  assert (Hcompletes : completes (@loginUser_try E) req one_user) by reflexivity.
  destruct (@loginUser_rejects_bad_credentials E req (alice_body "looking-glass") one_user
              eq_refl eq_refl (or_intror (ex_intro _ alice (conj eq_refl eq_refl))))
    as (Hnotoken & Hnot200 & Hdb & Hanswer).
  destruct (Hanswer Hcompletes) as [Hstatus Hbody].
  repeat apply conj; try reflexivity; assumption.
Defined.

Lemma loginUser_checks_generated_token_witness :
  let E := sample_externals never in
  let req := request_with_body (alice_body "wonderland") in
  let stolen := with_credentials req (Some {[ "token" := "jwt.other" ]})
                                 {[ "authorization" := "Bearer jwt.other" ]} in
  completes (@loginUser_try E) req one_user ∧
  log_of (serve (@loginUser E) req one_user) =
    [CallFindOne "alice@example.com";
     CallComparePassword (to_doc true alice) "wonderland";
     CallGenerateAuthToken (to_doc true alice);
     CallBlacklistExists "jwt.id"] ∧
  serve (@loginUser E) stolen one_user = serve (@loginUser E) req one_user.
Proof.
  intros E req stolen.
  assert (Hcompletes : completes (@loginUser_try E) req one_user) by reflexivity.
  destruct (@loginUser_checks_generated_token E req (alice_body "wonderland") alice one_user
              eq_refl eq_refl eq_refl eq_refl Hcompletes) as [Hlog Hsame].
  repeat apply conj; [assumption | assumption | apply Hsame].
Defined.

Lemma loginUser_blacklist_branch_unreachable_witness :
  let E := sample_externals never in
  let req := request_with_body (alice_body "wonderland") in
  let r := serve (@loginUser E) req one_user in
  (∀ user, @token_for E user ∉ blacklist one_user) ∧
  completes (@loginUser_try E) req one_user ∧
  status_of r = 200 ∧
  body_of r = Some (JTokenUser "jwt.id" (to_doc true alice)).
Proof.
  intros E req r.
  assert (Hunique : ∀ user, @token_for E user ∉ blacklist one_user)
    by (intros user; apply not_elem_of_nil).
  assert (Hcompletes : completes (@loginUser_try E) req one_user) by reflexivity.
  destruct (@loginUser_blacklist_branch_unreachable E req one_user Hunique)
    as [Hunreachable Hvalid].
  destruct (Hvalid (alice_body "wonderland") alice eq_refl eq_refl eq_refl eq_refl Hcompletes)
    as [Hstatus Hbody].
  repeat apply conj; assumption.
Defined.


Lemma getUserProfile_found_or_404_witness :
  let E := sample_externals never in
  let found := serve (@getUserProfile E) (profile_request "id") one_user in
  let missing := serve (@getUserProfile E) (profile_request "nobody") one_user in
  completes (@getUserProfile_try E) (profile_request "id") one_user ∧
  completes (@getUserProfile_try E) (profile_request "nobody") one_user ∧
  status_of found = 200 ∧
  body_of found = Some (JUser (to_doc false alice)) ∧
  status_of missing = 404 ∧
  body_of missing = Some (JMessage "User not found").
Proof.
  intros E found missing.
  assert (Hc1 : completes (@getUserProfile_try E) (profile_request "id") one_user)
    by reflexivity.
  assert (Hc2 : completes (@getUserProfile_try E) (profile_request "nobody") one_user)
    by reflexivity.
  destruct (@getUserProfile_found_or_404 E (profile_request "id") one_user)
    as (_ & _ & Hfound).
  destruct (Hfound _ eq_refl Hc1) as [_ Hsome].
  destruct (Hsome alice eq_refl) as (_ & _ & H200 & Hbody).
  destruct (@getUserProfile_found_or_404 E (profile_request "nobody") one_user)
    as (_ & _ & Hmissing).
  destruct (Hmissing _ eq_refl Hc2) as [Hnone _].
  assert (Hno : ∀ u, u ∈ users one_user → u_id u ≠ "nobody").
  { intros u Hin. apply list_elem_of_singleton in Hin. by subst u. }
  destruct (Hnone Hno) as [H404 Hmessage].
  repeat apply conj; assumption.
Defined.

Lemma handlers_catch_every_exception_witness :
  let E := sample_externals store_down in
  let req := logout_request (Some "jwt.id") None in
  outcome_of (serve (@logoutUser_try E) req one_user) = Thrown (Rejected "ECONNREFUSED") ∧
  answered_500 "Error logging out user:" (Rejected "ECONNREFUSED")
               (serve (@logoutUser E) req one_user) ∧
  outcome_of (serve (@getUserProfile_try E) (logout_request None None) one_user)
    = Thrown (TypeError "req.user") ∧
  answered_500 "Error getting user profile:" (TypeError "req.user")
               (serve (@getUserProfile E) (logout_request None None) one_user).
Proof.
  intros E req.
  destruct (@handlers_catch_every_exception E) as (_ & _ & Hprofile & Hlogout).
  refine (conj eq_refl (conj _ (conj eq_refl _))).
  - exact (proj2 (Hlogout req one_user) _ eq_refl).
  - exact (proj2 (Hprofile (logout_request None None) one_user) _ eq_refl).
Defined.

Lemma logout_token_cookie_then_header_witness :
  let E := sample_externals never in
  let req := logout_request (Some "jwt.id") (Some "Bearer jwt.other") in
  logout_token {[ "token" := "jwt.id" ]} (req_headers req) = Some "jwt.id" ∧
  head (log_of (serve (@logoutUser E) req one_user)) = Some (CallBlacklistCreate "jwt.id") ∧
  bearer_component (req_headers req) = Some "jwt.other".
Proof.
  intros E req.
  destruct (@logout_token_cookie_then_header E req {[ "token" := "jwt.id" ]} one_user eq_refl)
    as (Hcookie & _ & Hheader & _).
  destruct (Hcookie "jwt.id" eq_refl ltac:(discriminate)) as [Htoken Hsent].
  repeat apply conj; [exact Htoken | exact Hsent |].
  exact (Hheader "Bearer" "jwt.other" eq_refl eq_refl).
Defined.

Lemma loginUser_success_exposes_hash_witness :
  let E := sample_externals never in
  let req := request_with_body (alice_body "wonderland") in
  status_of (serve (@loginUser E) req one_user) = 200 ∧
  ∃ b u token,
    req_body req = Some b ∧
    stored_user one_user (email b) = Some u ∧
    body_of (serve (@loginUser E) req one_user) = Some (JTokenUser token (to_doc true u)) ∧
    token = @token_for E (to_doc true u) ∧
    d_password (to_doc true u) = Some (u_password u).
Proof.
  intros E req. split; [reflexivity|].
  apply (@loginUser_success_exposes_hash E req one_user). reflexivity.
Defined.

(** C9 as the specification words it fails twice.  An empty token cookie
    does not take precedence: the header's token is blacklisted and the
    answer is 200, where the cookie's (empty) value would give 401.  And
    the header is split at single spaces, not at whitespace: after two
    spaces the component at index 1 is empty and the answer is 401, where
    the second whitespace-separated component is the token. *)
Lemma logout_token_counterexample :
  let E := sample_externals never in
  let empty_cookie := logout_request (Some "") (Some "Bearer jwt.id") in
  let two_spaces := logout_request None (Some "Bearer  jwt.id") in
  (spec_logout_token {[ "token" := "" ]} (req_headers empty_cookie) = Some "" ∧
   logout_token {[ "token" := "" ]} (req_headers empty_cookie) = Some "jwt.id" ∧
   status_of (serve (@logoutUser E) empty_cookie empty_db) = 200 ∧
   blacklist (db_of (serve (@logoutUser E) empty_cookie empty_db)) = ["jwt.id"]) ∧
  (spec_logout_token ∅ (req_headers two_spaces) = Some "jwt.id" ∧
   logout_token ∅ (req_headers two_spaces) = Some "" ∧
   status_of (serve (@logoutUser E) two_spaces empty_db) = 401 ∧
   blacklist (db_of (serve (@logoutUser E) two_spaces empty_db)) = []) ∧
  ¬ (∀ cookies headers, logout_token cookies headers = spec_logout_token cookies headers).
Proof.
  intros E empty_cookie two_spaces. split_and!; try reflexivity.
  intros Hsame. specialize (Hsame ∅ (req_headers two_spaces)). discriminate Hsame.
Qed.

Lemma logoutUser_by_cookie_and_header_witness :
  let E := sample_externals never in
  let by_cookie := logout_request (Some "jwt.id") (Some "Bearer jwt.other") in
  let by_header := logout_request None (Some "Bearer jwt.id") in
  let without := logout_request None None in
  completes (@logoutUser_try E) by_cookie one_user ∧
  logout_done one_user "jwt.id" (serve (@logoutUser E) by_cookie one_user) ∧
  completes (@logoutUser_try E) by_header one_user ∧
  logout_done one_user "jwt.id" (serve (@logoutUser E) by_header one_user) ∧
  logout_rejected one_user (serve (@logoutUser E) without one_user).
Proof.
  intros E by_cookie by_header without.
  assert (Hc1 : completes (@logoutUser_try E) by_cookie one_user) by reflexivity.
  assert (Hc2 : completes (@logoutUser_try E) by_header one_user) by reflexivity.
  destruct (@logoutUser_by_cookie_and_header E by_cookie {[ "token" := "jwt.id" ]}
              one_user eq_refl) as [Hcookie _].
  destruct (@logoutUser_by_cookie_and_header E by_header ∅ one_user eq_refl)
    as [_ Hheader].
  destruct (Hheader (or_introl eq_refl)) as (_ & _ & Hsplit).
  destruct (Hsplit "Bearer" "jwt.id" eq_refl eq_refl) as [_ Htoken].
  destruct (@logoutUser_by_cookie_and_header E without ∅ one_user eq_refl)
    as [_ Hnone].
  destruct (Hnone (or_introl eq_refl)) as (Habsent & _).
  split_and!.
  - exact Hc1.
  - exact (Hcookie "jwt.id" eq_refl ltac:(discriminate) Hc1).
  - exact Hc2.
  - exact (Htoken ltac:(discriminate) Hc2).
  - exact (Habsent eq_refl).
Defined.

(** C6 as the specification words it fails on a header that carries a
    token the code does not find.  After two spaces, or after a tab, the
    second whitespace-separated component of the header is the token, no
    step throws, and still the answer is 401 and nothing is blacklisted. *)
Lemma logoutUser_token_in_header_counterexample :
  let E := sample_externals never in
  let two_spaces := logout_request None (Some "Bearer  jwt.id") in
  let tabbed := logout_request None (Some ("Bearer" +:+ String "009"%char "jwt.id")) in
  (spec_logout_token ∅ (req_headers two_spaces) = Some "jwt.id" ∧
   completes (@logoutUser_try E) two_spaces empty_db ∧
   status_of (serve (@logoutUser E) two_spaces empty_db) = 401 ∧
   db_of (serve (@logoutUser E) two_spaces empty_db) = empty_db ∧
   cleared_of (serve (@logoutUser E) two_spaces empty_db) = []) ∧
  (spec_logout_token ∅ (req_headers tabbed) = Some "jwt.id" ∧
   completes (@logoutUser_try E) tabbed empty_db ∧
   status_of (serve (@logoutUser E) tabbed empty_db) = 401 ∧
   db_of (serve (@logoutUser E) tabbed empty_db) = empty_db ∧
   cleared_of (serve (@logoutUser E) tabbed empty_db) = []) ∧
  ¬ (∀ req cookies t,
       req_cookies req = Some cookies →
       spec_logout_token cookies (req_headers req) = Some t →
       completes (@logoutUser_try E) req empty_db →
       status_of (serve (@logoutUser E) req empty_db) = 200).
Proof.
  intros E two_spaces tabbed. split_and!; try reflexivity.
  intros Hclaim.
  specialize (Hclaim two_spaces ∅ "jwt.id" eq_refl eq_refl eq_refl).
  discriminate Hclaim.
Qed.

(** * Further properties of the handlers *)

Ltac run_handler :=
  unfold completes, throws, rejected_as_invalid, serve, outcome_of, status_of, body_of,
    cleared_of, db_of, log_of,
    registerUser, registerUser_try, loginUser, loginUser_try,
    getUserProfile, getUserProfile_try, logoutUser, logoutUser_try,
    internal_server_error, console.error, validationResult,
    userModel.exists_, userModel.hashPassword, userModel.findOne_select_password,
    userModel.findById, userModel.comparePassword, userModel.generateAuthToken,
    userService.createUser, blacklistedTokenModel.exists_, blacklistedTokenModel.create,
    call, log, defined, res.status, res.json, res.clearCookie,
    try_catch, bind, ret, throw in *.

(** One more branch of the run: a call that may fail, or a value the
    handler tests. *)
Ltac branch :=
  simpl in *;
  match goal with
  | |- context [fails ?e] => destruct (fails e) eqn:?
  | |- context [isEmpty ?l] => destruct l eqn:?
  | |- context [match req_body ?r with _ => _ end] => destruct (req_body r) eqn:?
  | |- context [match req_user ?r with _ => _ end] => destruct (req_user r) eqn:?
  | |- context [match req_cookies ?r with _ => _ end] => destruct (req_cookies r) eqn:?
  | |- context [stored_user ?d ?e] => destruct (stored_user d e) eqn:?
  | |- context [stored_user_by_id ?d ?i] => destruct (stored_user_by_id d i) eqn:?
  | |- context [blacklisted ?d ?t] => destruct (blacklisted d t) eqn:?
  | |- context [password_matches ?u ?p] => destruct (password_matches u p) eqn:?
  | |- context [match logout_token ?c ?h with _ => _ end] =>
      destruct (logout_token c h) eqn:?
  | |- context [String.eqb ?t ""] => destruct (String.eqb t "") eqn:?
  end;
  simpl in *.

Ltac all_branches := run_handler; repeat branch.

Section Further.
Context `{Externals}.

Implicit Types (req : request) (d : db) (b : body) (u : user_record).

(** X1: a register or login request that failed validation is answered
    400 with the validation errors before anything else happens: no model
    or service is called, the body of the request is not even read, and
    the store is as it was. *)
Theorem invalid_request_rejected_before_any_call req d :
  validationResult req ≠ [] →
  rejected_as_invalid req d (serve registerUser req d) ∧
  rejected_as_invalid req d (serve loginUser req d).
Proof.
  intros Hinvalid. run_handler.
  destruct (req_validation req) as [|e errors]; [done|]. simpl.
  by destruct d.
Qed.

(** X2: every handler answers every request: it sends a body, and the
    status is one of 201, 400, 500 for registerUser, one of 200, 400, 401,
    500 for loginUser, and one of 200, 401, 500 for logoutUser. *)
Theorem every_request_is_answered req d :
  (is_Some (body_of (serve registerUser req d)) ∧
   status_of (serve registerUser req d) ∈ [201; 400; 500]) ∧
  (is_Some (body_of (serve loginUser req d)) ∧
   status_of (serve loginUser req d) ∈ [200; 400; 401; 500]) ∧
  is_Some (body_of (serve getUserProfile req d)) ∧
  (is_Some (body_of (serve logoutUser req d)) ∧
   status_of (serve logoutUser req d) ∈ [200; 401; 500]).
Proof.
  split_and!; all_branches; first [by eexists | set_solver].
Qed.

(** X3: a handler answers 500 exactly when a step of its try block
    throws; no path that runs to its end answers 500. *)
Theorem status_500_iff_thrown req d :
  (status_of (serve registerUser req d) = 500 ↔ throws registerUser_try req d) ∧
  (status_of (serve loginUser req d) = 500 ↔ throws loginUser_try req d) ∧
  (status_of (serve getUserProfile req d) = 500 ↔ throws getUserProfile_try req d) ∧
  (status_of (serve logoutUser req d) = 500 ↔ throws logoutUser_try req d).
Proof.
  split_and!; all_branches;
    (split; [first [discriminate | by eexists] | first [done | by intros [? ?]]]).
Qed.
(** X4: loginUser only reads: whatever the request and whichever step
    fails, the user collection and the blacklist are what they were, and no
    cookie is cleared. *)
Theorem loginUser_never_writes req d :
  db_of (serve loginUser req d) = d ∧
  cleared_of (serve loginUser req d) = [].
Proof.
  split; all_branches; by destruct d.
Qed.

(** X5: registerUser never touches the blacklist, and the user collection
    is either what it was or has gained, at its end, exactly one user: the
    one of the request body, with the hashed password, and only when
    validation passed and no stored user had that email. *)
Theorem registerUser_inserts_at_most_one req d :
  let d' := db_of (serve registerUser req d) in
  blacklist d' = blacklist d ∧
  (users d' = users d ∨
   ∃ b, validationResult req = [] ∧
        req_body req = Some b ∧
        stored_user d (email b) = None ∧
        users d' = users d ++ [userService.new_user d (fullname b) (email b)
                                                    (hash_of (password b))]).
Proof.
  split; all_branches; try done; try (by left); right; by eexists.
Qed.

(** X6: logoutUser never touches the user collection, and it is all or
    nothing: answered 200, the token it extracted (not empty) is the one
    new entry at the end of the blacklist and the token cookie is cleared;
    answered anything else, the blacklist is what it was and no cookie is
    cleared. *)
Theorem logoutUser_all_or_nothing req d :
  let r := serve logoutUser req d in
  users (db_of r) = users d ∧
  (status_of r ≠ 200 → db_of r = d ∧ cleared_of r = []) ∧
  (status_of r = 200 →
   ∃ cookies t, req_cookies req = Some cookies ∧
                logout_token cookies (req_headers req) = Some t ∧
                t ≠ "" ∧
                db_of r = with_blacklisted d t ∧
                cleared_of r = ["token"]).
Proof.
  split_and!; all_branches; try done; try (by destruct d).
  intros _. eexists _, _. split_and!; try done.
  by apply String.eqb_neq.
Qed.
(** ** The store after an insert *)

Lemma find_app_None {A : Type} (p : A → bool) (l k : list A) :
  find p l = None → find p (l ++ k) = find p k.
Proof.
  induction l as [|x l IH]; simpl; [done|]. by destruct (p x).
Qed.

Lemma find_app_Some {A : Type} (p : A → bool) (l k : list A) (x : A) :
  find p l = Some x → find p (l ++ k) = Some x.
Proof.
  induction l as [|y l IH]; simpl; [done|]. by destruct (p y).
Qed.

Lemma stored_user_with_user_new d u :
  stored_user d (u_email u) = None →
  stored_user (with_user d u) (u_email u) = Some u.
Proof.
  unfold stored_user, with_user. simpl. intros Hnone.
  rewrite (find_app_None _ _ _ Hnone). simpl.
  unfold has_email. by rewrite String.eqb_refl.
Qed.

Lemma stored_user_with_user_old d u e u0 :
  stored_user d e = Some u0 → stored_user (with_user d u) e = Some u0.
Proof. unfold stored_user, with_user. simpl. apply find_app_Some. Qed.

Lemma stored_user_by_id_with_user_new d u :
  stored_user_by_id d (u_id u) = None →
  stored_user_by_id (with_user d u) (u_id u) = Some u.
Proof.
  unfold stored_user_by_id, with_user. simpl. intros Hnone.
  rewrite (find_app_None _ _ _ Hnone). simpl.
  unfold has_id. by rewrite String.eqb_refl.
Qed.

Lemma stored_user_absent d e :
  stored_user d e = None → e ∉ u_email <$> users d.
Proof.
  unfold stored_user. intros Hnone Hin.
  apply list_elem_of_fmap in Hin as (u & -> & Hin).
  apply list_elem_of_In in Hin.
  pose proof (find_none _ _ Hnone u Hin) as Hno.
  unfold has_email in Hno. by rewrite String.eqb_refl in Hno.
Qed.

Lemma unique_emails_with_user d u :
  unique_emails d → stored_user d (u_email u) = None → unique_emails (with_user d u).
Proof.
  unfold unique_emails, with_user. simpl. intros Hunique Hnone.
  rewrite fmap_app. apply NoDup_app. split_and!; [done| |apply NoDup_singleton].
  intros e Hin Hnew. apply list_elem_of_singleton in Hnew. subst e.
  by apply (stored_user_absent d (u_email u)).
Qed.

(** The store after registerUser: the old one, or the old one with the
    user of the request, whose email no stored user had. *)
Lemma registerUser_inserted_or_not req d :
  db_of (serve registerUser req d) = d ∨
  ∃ b, stored_user d (email b) = None ∧
       db_of (serve registerUser req d)
         = with_user d (userService.new_user d (fullname b) (email b)
                                              (hash_of (password b))).
Proof.
  all_branches; try (left; by destruct d); right; by eexists.
Qed.

(** What a 201 from registerUser tells: validation passed, no stored user
    had the email, and the store is the old one with the new user. *)
Lemma registerUser_201 req d :
  status_of (serve registerUser req d) = 201 →
  ∃ b, validationResult req = [] ∧
       req_body req = Some b ∧
       stored_user d (email b) = None ∧
       let u := userService.new_user d (fullname b) (email b) (hash_of (password b)) in
       db_of (serve registerUser req d) = with_user d u ∧
       body_of (serve registerUser req d)
         = Some (JTokenUser (token_for (to_doc false u)) (to_doc false u)).
Proof.
  all_branches; try discriminate. intros _. by eexists.
Qed.

(** A registration whose email a stored user has changes nothing and,
    when no step throws, is answered 400. *)
Lemma registerUser_taken req b d u :
  req_body req = Some b →
  stored_user d (email b) = Some u →
  db_of (serve registerUser req d) = d ∧
  (completes registerUser_try req d → status_of (serve registerUser req d) = 400).
Proof.
  intros Hbody Hstored. run_handler. rewrite Hbody.
  destruct (isEmpty (req_validation req)); simpl; [|by destruct d].
  destruct (fails (CallUserExists (email b))); simpl; [by destruct d|].
  rewrite Hstored. simpl. by destruct d.
Qed.

(** X7: there is no rollback.  When the user has been created and signing
    the token then throws, the answer is 500 but the new user stays in the
    store, so that registering again with the same email is answered 400
    (when no step throws) and not 201. *)
Theorem registerUser_no_rollback req b d e :
  validationResult req = [] →
  req_body req = Some b →
  stored_user d (email b) = None →
  let u := userService.new_user d (fullname b) (email b) (hash_of (password b)) in
  fails (CallUserExists (email b)) = None →
  fails (CallHashPassword (password b)) = None →
  fails (CallCreateUser (fullname b) (email b) (hash_of (password b))) = None →
  fails (CallGenerateAuthToken (to_doc false u)) = Some e →
  let r := serve registerUser req d in
  status_of r = 500 ∧
  body_of r = Some (JMessage "Internal server error") ∧
  db_of r = with_user d u ∧
  ∀ again, req_body again = Some b →
           completes registerUser_try again (db_of r) →
           status_of (serve registerUser again (db_of r)) = 400.
Proof.
  intros Hvalid Hbody Hfresh u Hexists Hhash Hcreate Hsign r.
  assert (Hrun : status_of r = 500 ∧
                 body_of r = Some (JMessage "Internal server error") ∧
                 db_of r = with_user d u).
  { subst r u. run_handler. rewrite Hvalid, Hbody. simpl.
    rewrite Hexists. simpl. rewrite Hfresh. simpl.
    rewrite Hhash. simpl. rewrite Hcreate. simpl. by rewrite Hsign. }
  destruct Hrun as (Hstatus & Hanswer & Hdb). split_and!; try done.
  intros again Hagain. rewrite Hdb.
  apply (registerUser_taken again b (with_user d u) u Hagain).
  by apply (stored_user_with_user_new d u).
Qed.

(** X8: a registration served on its own keeps emails unique: if no two
    stored users share an email before the request, and nothing else
    writes the user collection between its first line and its answer, none
    do after it, whatever the request and whichever step fails.  With a
    second registration in flight this is lost (X19). *)
Theorem registerUser_keeps_emails_unique req d :
  unique_emails d → unique_emails (db_of (serve registerUser req d)).
Proof.
  intros Hunique.
  destruct (registerUser_inserted_or_not req d) as [-> | (b & Hfresh & ->)]; [done|].
  by apply unique_emails_with_user.
Qed.
(** X9: after a registration answered 201, a second registration with the
    same email changes nothing and, when no step throws, is answered 400. *)
Theorem registerUser_second_time_rejected req again d :
  status_of (serve registerUser req d) = 201 →
  email <$> req_body again = email <$> req_body req →
  let d' := db_of (serve registerUser req d) in
  db_of (serve registerUser again d') = d' ∧
  (completes registerUser_try again d' →
   status_of (serve registerUser again d') = 400).
Proof.
  intros Hcreated Hsame d'. subst d'.
  destruct (registerUser_201 req d Hcreated) as (b & _ & Hbody & Hfresh & Hdb & _).
  rewrite Hbody in Hsame. destruct (req_body again) as [b'|] eqn:Hagain; [|done].
  injection Hsame as Hemail. rewrite Hdb.
  eapply (registerUser_taken again b'); [done|].
  rewrite Hemail. by apply (stored_user_with_user_new d (userService.new_user _ _ _ _)).
Qed.

(** ** Logging in *)

Lemma blacklisted_Some d token : token ∈ blacklist d → blacklisted d token = Some token.
Proof.
  unfold blacklisted. intros Hin.
  destruct (find _ _) as [t|] eqn:Hfind.
  - apply find_some in Hfind as [_ Heq]. apply String.eqb_eq in Heq. by subst t.
  - apply list_elem_of_In in Hin. pose proof (find_none _ _ Hfind token Hin) as Hno.
    by rewrite String.eqb_refl in Hno.
Qed.

(** A login with valid credentials on which no step throws is decided by
    the blacklist lookup of the generated token alone. *)
Lemma loginUser_valid req b u d :
  validationResult req = [] →
  req_body req = Some b →
  stored_user d (email b) = Some u →
  password_matches (to_doc true u) (password b) = true →
  completes loginUser_try req d →
  let user := to_doc true u in
  let r := serve loginUser req d in
  match blacklisted d (token_for user) with
  | Some _ =>
      status_of r = 401 ∧
      body_of r = Some (JMessage "Token is blacklisted, please login again")
  | None => status_of r = 200 ∧ body_of r = Some (JTokenUser (token_for user) user)
  end.
Proof.
  intros Hvalid Hbody Hstored Hmatch. run_handler. rewrite Hvalid, Hbody. simpl.
  destruct (fails (CallFindOne (email b))); simpl; [done|].
  rewrite Hstored. simpl.
  destruct (fails (CallComparePassword _ _)); simpl; [done|].
  rewrite Hmatch. simpl.
  destruct (fails (CallGenerateAuthToken _)); simpl; [done|].
  destruct (fails (CallBlacklistExists _)); simpl; [done|].
  by destruct (blacklisted d _).
Qed.

(** X10: registering and then logging in with the same email and password
    succeeds.  After a registration answered 201, provided comparePassword
    accepts a password against its own hash and the token signed is not
    blacklisted, a valid login on which no step throws is answered 200 with
    the user just created, stored hash included. *)
Theorem loginUser_after_registerUser req login b d :
  status_of (serve registerUser req d) = 201 →
  req_body req = Some b →
  validationResult login = [] →
  req_body login = Some b →
  (∀ user pw, d_password user = Some (hash_of pw) → password_matches user pw = true) →
  (∀ user, token_for user ∉ blacklist d) →
  let d' := db_of (serve registerUser req d) in
  completes loginUser_try login d' →
  let u := userService.new_user d (fullname b) (email b) (hash_of (password b)) in
  status_of (serve loginUser login d') = 200 ∧
  body_of (serve loginUser login d')
    = Some (JTokenUser (token_for (to_doc true u)) (to_doc true u)) ∧
  d_password (to_doc true u) = Some (hash_of (password b)).
Proof.
  intros Hcreated Hbody Hvalid Hlogin Hcompare Hunique d' Hcompletes u.
  destruct (registerUser_201 req d Hcreated) as (b0 & _ & Hbody0 & Hfresh & Hdb & _).
  rewrite Hbody in Hbody0. injection Hbody0 as <-.
  subst d'. rewrite Hdb in *. fold u in Hcompletes |- *.
  pose proof (loginUser_valid login b u (with_user d u) Hvalid Hlogin
                (stored_user_with_user_new d u Hfresh)
                (Hcompare (to_doc true u) (password b) eq_refl) Hcompletes) as Hrun.
  simpl in Hrun.
  rewrite (proj2 (blacklisted_None (with_user d u) _) (Hunique _)) in Hrun.
  by destruct Hrun.
Qed.

(** X11: the blacklist branch of loginUser is taken exactly on the token
    it has just generated: a login with valid credentials on which no step
    throws, whose freshly signed token is in the blacklist, is answered 401
    "Token is blacklisted, please login again". *)
Theorem loginUser_rejects_blacklisted_token req b u d :
  validationResult req = [] →
  req_body req = Some b →
  stored_user d (email b) = Some u →
  password_matches (to_doc true u) (password b) = true →
  token_for (to_doc true u) ∈ blacklist d →
  completes loginUser_try req d →
  status_of (serve loginUser req d) = 401 ∧
  body_of (serve loginUser req d)
    = Some (JMessage "Token is blacklisted, please login again").
Proof.
  intros Hvalid Hbody Hstored Hmatch Hlisted Hcompletes.
  pose proof (loginUser_valid req b u d Hvalid Hbody Hstored Hmatch Hcompletes) as Hrun.
  simpl in Hrun. by rewrite (blacklisted_Some _ _ Hlisted) in Hrun.
Qed.

(** What a 200 from logoutUser tells. *)
Lemma logoutUser_200 req d :
  status_of (serve logoutUser req d) = 200 →
  ∃ cookies t, req_cookies req = Some cookies ∧
               logout_token cookies (req_headers req) = Some t ∧
               db_of (serve logoutUser req d) = with_blacklisted d t.
Proof.
  all_branches; try discriminate. intros _. by eexists _, _.
Qed.

(** X12: logging out and then logging in.  After a logout answered 200
    for a token, a login with valid credentials for which the signer
    produces that same token again is answered 401 (when no step throws):
    the token blacklisted at logout is the one the login is refused for. *)
Theorem loginUser_after_logoutUser out cookies req b u d :
  status_of (serve logoutUser out d) = 200 →
  req_cookies out = Some cookies →
  logout_token cookies (req_headers out) = Some (token_for (to_doc true u)) →
  validationResult req = [] →
  req_body req = Some b →
  stored_user d (email b) = Some u →
  password_matches (to_doc true u) (password b) = true →
  let d' := db_of (serve logoutUser out d) in
  completes loginUser_try req d' →
  status_of (serve loginUser req d') = 401 ∧
  body_of (serve loginUser req d')
    = Some (JMessage "Token is blacklisted, please login again").
Proof.
  intros Hout Hcookies Htoken Hvalid Hbody Hstored Hmatch d' Hcompletes.
  destruct (logoutUser_200 out d Hout) as (cookies' & t & Hcookies' & Htoken' & Hdb).
  rewrite Hcookies in Hcookies'. injection Hcookies' as <-.
  rewrite Htoken in Htoken'. injection Htoken' as <-.
  subst d'. rewrite Hdb in *.
  pose proof (loginUser_valid req b u (with_blacklisted d _) Hvalid Hbody Hstored Hmatch
                Hcompletes) as Hrun.
  simpl in Hrun. rewrite blacklisted_Some in Hrun; [done|].
  simpl. apply elem_of_app. right. apply list_elem_of_singleton. done.
Qed.
(** X13: registering and then fetching the profile gives the same user
    back.  After a registration answered 201, if the identifier given to the
    new user was not in use, a profile request for that identifier on which
    no step throws is answered 200 with the very user object the
    registration answered. *)
Theorem getUserProfile_after_registerUser req profile authenticated d :
  status_of (serve registerUser req d) = 201 →
  (∀ u, u ∈ users d → u_id u ≠ new_id (users d)) →
  req_user profile = Some authenticated →
  d_id authenticated = new_id (users d) →
  let d' := db_of (serve registerUser req d) in
  completes getUserProfile_try profile d' →
  status_of (serve getUserProfile profile d') = 200 ∧
  ∃ token user,
    body_of (serve registerUser req d) = Some (JTokenUser token user) ∧
    body_of (serve getUserProfile profile d') = Some (JUser user).
Proof.
  intros Hcreated Hunused Huser Hid d'. subst d'.
  destruct (registerUser_201 req d Hcreated) as (b & _ & _ & _ & Hdb & Hanswer).
  simpl in Hdb, Hanswer. rewrite Hdb, Hanswer.
  set (u := userService.new_user d (fullname b) (email b) (hash_of (password b))).
  assert (Hfound : stored_user_by_id (with_user d u) (d_id authenticated) = Some u).
  { rewrite Hid. apply (stored_user_by_id_with_user_new d u).
    by apply stored_user_by_id_None. }
  run_handler. rewrite Huser. simpl.
  destruct (fails (CallFindById (d_id authenticated))); simpl; [done|].
  intros _. rewrite Hfound. simpl. split; [done|]. by eexists _, _.
Qed.

(** X14: a handler whose request lacks what it reads answers 500 without
    calling a model: logoutUser when req.cookies is undefined, even if the
    Authorization header carries a token; getUserProfile when req.user is
    undefined; registerUser and loginUser when validation passed and
    req.body is undefined.  The store is untouched in each case. *)
Theorem undefined_request_part_is_500 req d :
  (req_cookies req = None →
   status_of (serve logoutUser req d) = 500 ∧
   db_of (serve logoutUser req d) = d ∧
   ∃ e, log_of (serve logoutUser req d) = [ConsoleError "Error logging out user:" e]) ∧
  (req_user req = None →
   status_of (serve getUserProfile req d) = 500 ∧
   ∃ e, log_of (serve getUserProfile req d)
        = [ConsoleError "Error getting user profile:" e]) ∧
  (validationResult req = [] → req_body req = None →
   (status_of (serve registerUser req d) = 500 ∧
    db_of (serve registerUser req d) = d ∧
    ∃ e, log_of (serve registerUser req d) = [ConsoleError "Error registering user:" e]) ∧
   (status_of (serve loginUser req d) = 500 ∧
    ∃ e, log_of (serve loginUser req d) = [ConsoleError "Error logging in user:" e])).
Proof.
  split_and!.
  - intros Hcookies. run_handler. rewrite Hcookies. simpl.
    split_and!; [done|by destruct d|by eexists].
  - intros Huser. run_handler. rewrite Huser. simpl. split; [done|by eexists].
  - intros Hvalid Hbody. run_handler. rewrite Hvalid, Hbody. simpl.
    split_and!; [done|by destruct d|by eexists|done|by eexists].
Qed.

(** X15: a token is signed at login only for a stored user whose password
    matched: whenever generateAuthToken is called in a run of loginUser,
    validation passed, the user it is called on is the stored user with the
    email of the request, and comparePassword accepted the password. *)
Theorem loginUser_signs_only_after_match req d user :
  CallGenerateAuthToken user ∈ log_of (serve loginUser req d) →
  ∃ b u, validationResult req = [] ∧
         req_body req = Some b ∧
         stored_user d (email b) = Some u ∧
         user = to_doc true u ∧
         password_matches user (password b) = true.
Proof.
  all_branches; intros Hin; set_unfold; destruct_or?; try discriminate;
    match goal with
    | Heq : CallGenerateAuthToken _ = CallGenerateAuthToken _ |- _ =>
        injection Heq as ->
    end; by eexists _, _.
Qed.

(** ** Splitting and joining *)

Lemma split_not_nil sep s : split sep s ≠ [].
Proof.
  destruct s as [|c rest]; simpl; [done|].
  destruct (Ascii.eqb c sep); [done|]. by destruct (split sep rest).
Qed.

Lemma before_free_of sep s : free_of sep s = true → before sep s = s.
Proof.
  induction s as [|c rest IH]; simpl; [done|].
  destruct (Ascii.eqb c sep); simpl; [done|]. intros Hfree. by rewrite (IH Hfree).
Qed.

(** X16: splitting the Authorization header loses nothing and leaves no
    separator behind: joining the pieces of split with the separator gives
    the string back, every piece is free of the separator, and there is
    always at least one piece. *)
Theorem split_join sep s :
  join sep (split sep s) = s ∧
  Forall (λ piece, free_of sep piece = true) (split sep s) ∧
  split sep s ≠ [].
Proof.
  split_and!; [| |apply split_not_nil].
  - unfold join. induction s as [|c rest IH]; simpl; [done|].
    destruct (Ascii.eqb c sep) eqn:Hc.
    + apply Ascii.eqb_eq in Hc. subst c.
      pose proof (split_not_nil sep rest) as Hne.
      destruct (split sep rest) as [|piece pieces] eqn:Hsplit; [done|].
      simpl in *. by rewrite IH.
    + pose proof (split_not_nil sep rest) as Hne.
      destruct (split sep rest) as [|piece pieces] eqn:Hsplit; [done|].
      simpl in *. destruct pieces; simpl in *; by rewrite <- IH.
  - induction s as [|c rest IH]; simpl; [by repeat constructor|].
    destruct (Ascii.eqb c sep) eqn:Hc; [by constructor|].
    destruct (split sep rest) as [|piece pieces]; [repeat constructor; simpl; by rewrite Hc|].
    apply Forall_cons in IH as [Hpiece Hpieces].
    constructor; [|done]. simpl. by rewrite Hc.
Qed.

(** X17: logoutUser does not look at the scheme of the Authorization
    header.  For a request without a token cookie whose header is any word
    without spaces, one space, and a non-empty token without spaces, the
    token is blacklisted and the answer is 200 (when the insert does not
    throw), whether the word is Bearer or not. *)
Theorem logoutUser_accepts_any_scheme req cookies scheme t d :
  req_cookies req = Some cookies →
  cookies !! "token" = None →
  req_headers req !! "authorization" = Some (scheme +:+ " " +:+ t) →
  free_of " " scheme = true →
  free_of " " t = true →
  t ≠ "" →
  completes logoutUser_try req d →
  status_of (serve logoutUser req d) = 200 ∧
  db_of (serve logoutUser req d) = with_blacklisted d t ∧
  cleared_of (serve logoutUser req d) = ["token"].
Proof.
  intros Hcookies Hcookie Hheader Hscheme Hfree Hnonempty.
  assert (Htoken : logout_token cookies (req_headers req) = Some t).
  { unfold logout_token, js_or, bearer_component. rewrite Hcookie, Hheader. simpl.
    change (scheme +:+ " " +:+ t) with (scheme +:+ String " "%char t).
    rewrite (split_at_first _ _ _ Hscheme).
    change ((scheme :: split " " t) !! 1%nat) with (split " " t !! 0%nat).
    by rewrite (split_free_of _ _ Hfree). }
  apply String.eqb_neq in Hnonempty.
  run_handler. rewrite Hcookies. simpl. rewrite Htoken, Hnonempty. simpl.
  by destruct (fails (CallBlacklistCreate t)).
Qed.
(** ** Two registrations in flight *)

(** The two steps run back to back are the handler. *)
Lemma registerUser_in_two_steps req w :
  registerUser req w
  = (let (checked, w1) := registerUser_check req w in registerUser_resume checked w1).
Proof.
  unfold registerUser_check, registerUser_resume, registerUser_rest.
  run_handler.
  destruct (isEmpty (req_validation req)); simpl; [|done].
  destruct (req_body req) as [b|]; simpl; [|done].
  destruct (fails (CallUserExists (email b))); simpl; [done|].
  by destruct (stored_user (w_db w) (email b)).
Qed.

Lemma not_unique_emails d uA uB :
  u_email uB = u_email uA → ¬ unique_emails (with_user (with_user d uA) uB).
Proof.
  unfold unique_emails, with_user. simpl. intros Hsame Hunique.
  rewrite <- app_assoc, fmap_app in Hunique. simpl in Hunique.
  apply NoDup_app in Hunique as (_ & _ & Hpair).
  apply NoDup_cons in Hpair as [Hnotin _]. apply Hnotin.
  rewrite Hsame. apply list_elem_of_here.
Qed.

Lemma registerUser_check_misses req b d :
  (∀ e, fails e = None) →
  validationResult req = [] →
  req_body req = Some b →
  stored_user d (email b) = None →
  registerUser_check req (fresh d)
  = (Returned (Some (b, None)),
     {| w_db := d; w_log := [CallUserExists (email b)]; w_res := fresh_response |}).
Proof.
  intros Hnone Hvalid Hbody Hfresh.
  unfold registerUser_check, fresh. run_handler. rewrite Hvalid, Hbody. simpl.
  rewrite Hnone. simpl. by rewrite Hfresh.
Qed.

Lemma registerUser_resume_inserts b w :
  (∀ e, fails e = None) →
  let r := registerUser_resume (Returned (Some (b, None))) w in
  status_of r = 201 ∧
  db_of r = with_user (w_db w) (userService.new_user (w_db w) (fullname b) (email b)
                                                     (hash_of (password b))).
Proof.
  intros Hnone. unfold registerUser_resume, registerUser_rest. run_handler.
  rewrite Hnone. simpl. rewrite Hnone. simpl. by rewrite Hnone.
Qed.

(** X19: the existence check does not protect against a second
    registration in flight.  registerUser awaits its existence check
    before it inserts; when two registrations for the same email, which no
    stored user has, both have their check run before either goes on (and
    no call fails), both are answered 201 and the store ends with two users
    with that email: emails are no longer unique. *)
Theorem registerUser_race reqA reqB bA bB d :
  (∀ e, fails e = None) →
  validationResult reqA = [] →
  validationResult reqB = [] →
  req_body reqA = Some bA →
  req_body reqB = Some bB →
  email bB = email bA →
  stored_user d (email bA) = None →
  let rA := fst (registerUser_raced reqA reqB d) in
  let rB := snd (registerUser_raced reqA reqB d) in
  let uA := userService.new_user d (fullname bA) (email bA) (hash_of (password bA)) in
  let uB := userService.new_user (with_user d uA) (fullname bB) (email bB)
                                 (hash_of (password bB)) in
  status_of rA = 201 ∧
  status_of rB = 201 ∧
  db_of rB = with_user (with_user d uA) uB ∧
  u_email uA = u_email uB ∧
  ¬ unique_emails (db_of rB).
Proof.
  intros Hnone HvalidA HvalidB HbodyA HbodyB Hemail Hfresh rA rB uA uB.
  subst rA rB. unfold registerUser_raced.
  rewrite (registerUser_check_misses reqA bA d Hnone HvalidA HbodyA Hfresh). simpl.
  assert (HfreshB : stored_user d (email bB) = None) by by rewrite Hemail.
  rewrite (registerUser_check_misses reqB bB d Hnone HvalidB HbodyB HfreshB). simpl.
  match goal with
  | |- context [registerUser_resume (Returned (Some (bA, None))) ?w] =>
      destruct (registerUser_resume_inserts bA w Hnone) as [HA HdbA]
  end.
  simpl in HdbA. fold uA in HdbA. rewrite HdbA.
  match goal with
  | |- context [registerUser_resume (Returned (Some (bB, None))) ?w] =>
      destruct (registerUser_resume_inserts bB w Hnone) as [HB HdbB]
  end.
  simpl in HdbB. fold uB in HdbB.
  split_and!; [done|done|done|by subst uA uB|].
  rewrite HdbB. apply not_unique_emails. by subst uA uB.
Qed.

(** ** The store over time *)

Lemma served_step (handler : request → M unit) req d :
  handler ∈ [registerUser; loginUser; getUserProfile; logoutUser] →
  let d' := db_of (serve handler req d) in
  users d `prefix_of` users d' ∧
  (unique_emails d → unique_emails d') ∧
  (blacklist d' = blacklist d ∨
   ∃ cookies t, handler = logoutUser ∧
                req_cookies req = Some cookies ∧
                logout_token cookies (req_headers req) = Some t ∧
                blacklist d' = blacklist d ++ [t]).
Proof.
  intros Hhandler. set_unfold.
  destruct Hhandler as [-> | [-> | [-> | [-> | []]]]]; simpl.
  - destruct (registerUser_inserted_or_not req d) as [-> | (b & Hfresh & ->)].
    + split_and!; [done|done|by left].
    + split_and!; [by eexists| |by left].
      intros Hunique. by apply unique_emails_with_user.
  - assert (Hsame : db_of (serve loginUser req d) = d)
      by (all_branches; by destruct d).
    rewrite Hsame. split_and!; [done|done|by left].
  - assert (Hsame : db_of (serve getUserProfile req d) = d)
      by (all_branches; by destruct d).
    rewrite Hsame. split_and!; [done|done|by left].
  - assert (Hstep : db_of (serve logoutUser req d) = d ∨
                    ∃ cookies t, req_cookies req = Some cookies ∧
                                 logout_token cookies (req_headers req) = Some t ∧
                                 db_of (serve logoutUser req d) = with_blacklisted d t)
      by (all_branches; try (left; by destruct d); right; by eexists _, _).
    destruct Hstep as [-> | (cookies & t & Hcookies & Htoken & ->)].
    + split_and!; [done|done|by left].
    + split_and!; [done|done|]. right. by exists cookies, t.
Qed.

Lemma expire_blacklist gone d t :
  t ∈ blacklist (expire gone d) → t ∈ blacklist d.
Proof.
  unfold expire. simpl. intros Hin. apply list_elem_of_In in Hin.
  apply filter_In in Hin as [Hin _]. by apply list_elem_of_In.
Qed.

Lemma logged_out_later ev events t : logged_out events t → logged_out (ev :: events) t.
Proof.
  intros (req & cookies & Hin & Hcookies & Htoken).
  exists req, cookies. split_and!; [by apply list_elem_of_further|done|done].
Qed.

(** X18: over any sequence of requests served by the four handlers one
    after the other, with expiries of blacklisted tokens in between, no
    stored user is ever removed or reordered (the user collection of the
    start is a prefix of that of the end), emails that were unique stay
    unique, and a token is in the blacklist at the end only if it was there
    at the start or a logout in the sequence took it from its request;
    without expiries the blacklist of the start is a prefix of that of the
    end. *)
Theorem store_over_time (events : list store_event) d :
  Forall of_the_controller events →
  let d' := store_after events d in
  users d `prefix_of` users d' ∧
  (unique_emails d → unique_emails d') ∧
  (∀ t, t ∈ blacklist d' → t ∈ blacklist d ∨ logged_out events t) ∧
  (Forall (λ ev, is_expiry ev = false) events → blacklist d `prefix_of` blacklist d').
Proof.
  intros Hevents. revert d.
  induction Hevents as [|ev events Hev _ IH]; intros d; simpl.
  - split_and!; [done|done|by left|done].
  - destruct ev as [handler req|gone]; simpl in *.
    + destruct (served_step handler req d Hev) as (Husers & Hunique & Hblack).
      destruct (IH (db_of (serve handler req d)))
        as (Husers' & Hunique' & Hblack' & Hprefix').
      split_and!.
      * by etrans.
      * intros Hd. apply Hunique', Hunique, Hd.
      * intros t Hin. destruct (Hblack' t Hin) as [Hthen | Hlater];
          [|right; by apply logged_out_later].
        destruct Hblack as [Hsame | (cookies & t' & -> & Hcookies & Htoken & Hgrown)].
        -- left. by rewrite <- Hsame.
        -- rewrite Hgrown in Hthen. apply elem_of_app in Hthen as [Hold | Hnew];
             [by left|].
           apply list_elem_of_singleton in Hnew. subst t'. right.
           exists req, cookies. split_and!; [apply list_elem_of_here|done|done].
      * intros Hnone. apply Forall_cons in Hnone as [_ Hnone].
        etrans; [|by apply Hprefix'].
        destruct Hblack as [Hsame | (cookies & t' & _ & _ & _ & Hgrown)].
        -- by rewrite Hsame.
        -- rewrite Hgrown. by eexists.
    + destruct (IH (expire gone d)) as (Husers' & Hunique' & Hblack' & _).
      split_and!; [done|done| |].
      * intros t Hin. destruct (Hblack' t Hin) as [Hthen | Hlater];
          [left; by eapply expire_blacklist|right; by apply logged_out_later].
      * intros Hnone. by apply Forall_cons in Hnone as [? _].
Qed.
End Further.

(** * The further properties on concrete requests *)

Lemma invalid_request_rejected_before_any_call_witness :
  let E := sample_externals store_down in
  validationResult invalid_request ≠ [] ∧
  rejected_as_invalid invalid_request one_user
    (serve (@registerUser E) invalid_request one_user) ∧
  rejected_as_invalid invalid_request one_user
    (serve (@loginUser E) invalid_request one_user).
Proof.
  intros E.
  assert (Hinvalid : validationResult invalid_request ≠ []) by discriminate.
  split; [exact Hinvalid|].
  exact (@invalid_request_rejected_before_any_call E invalid_request one_user Hinvalid).
Defined.

Lemma registerUser_no_rollback_witness :
  let E := sample_externals signer_down in
  let req := request_with_body (alice_body "wonderland") in
  let r := serve (@registerUser E) req empty_db in
  status_of r = 500 ∧
  db_of r = one_user ∧
  completes (@registerUser_try E) req one_user ∧
  status_of (serve (@registerUser E) req one_user) = 400.
Proof.
  intros E req r.
  destruct (@registerUser_no_rollback E req (alice_body "wonderland") empty_db
              (Rejected "secretOrPrivateKey must have a value")
              eq_refl eq_refl eq_refl eq_refl eq_refl eq_refl eq_refl)
    as (Hstatus & _ & Hdb & Hagain).
  assert (Hcompletes : completes (@registerUser_try E) req one_user) by reflexivity.
  split_and!; [exact Hstatus | exact Hdb | exact Hcompletes |].
  exact (Hagain req eq_refl Hcompletes).
Defined.

Lemma registerUser_keeps_emails_unique_witness :
  let E := sample_externals never in
  let req := request_with_body (alice_body "wonderland") in
  unique_emails empty_db ∧
  db_of (serve (@registerUser E) req empty_db) = one_user ∧
  unique_emails (db_of (serve (@registerUser E) req empty_db)).
Proof.
  intros E req.
  assert (Hunique : unique_emails empty_db) by apply NoDup_nil_2.
  split_and!; [exact Hunique | reflexivity |].
  exact (@registerUser_keeps_emails_unique E req empty_db Hunique).
Defined.

Lemma registerUser_second_time_rejected_witness :
  let E := sample_externals never in
  let req := request_with_body (alice_body "wonderland") in
  let again := request_with_body (alice_body "looking-glass") in
  let d' := db_of (serve (@registerUser E) req empty_db) in
  status_of (serve (@registerUser E) req empty_db) = 201 ∧
  completes (@registerUser_try E) again d' ∧
  db_of (serve (@registerUser E) again d') = d' ∧
  status_of (serve (@registerUser E) again d') = 400.
Proof.
  intros E req again d'.
  assert (Hcompletes : completes (@registerUser_try E) again d') by reflexivity.
  destruct (@registerUser_second_time_rejected E req again empty_db eq_refl eq_refl)
    as [Hsame Hstatus].
  split_and!; [reflexivity | exact Hcompletes | exact Hsame | exact (Hstatus Hcompletes)].
Defined.

Lemma loginUser_after_registerUser_witness :
  let E := sample_externals never in
  let req := request_with_body (alice_body "wonderland") in
  let d' := db_of (serve (@registerUser E) req empty_db) in
  status_of (serve (@registerUser E) req empty_db) = 201 ∧
  completes (@loginUser_try E) req d' ∧
  status_of (serve (@loginUser E) req d') = 200 ∧
  body_of (serve (@loginUser E) req d') = Some (JTokenUser "jwt.id" (to_doc true alice)).
Proof.
  intros E req d'.
  assert (Hcompare : ∀ user pw, d_password user = Some (@hash_of E pw) →
                                @password_matches E user pw = true).
  { intros user pw Hstored. simpl. rewrite Hstored. apply String.eqb_refl. }
  assert (Hunique : ∀ user, @token_for E user ∉ blacklist empty_db)
    by (intros user; apply not_elem_of_nil).
  assert (Hcompletes : completes (@loginUser_try E) req d') by reflexivity.
  destruct (@loginUser_after_registerUser E req req (alice_body "wonderland") empty_db
              eq_refl eq_refl eq_refl eq_refl Hcompare Hunique Hcompletes)
    as (Hstatus & Hbody & _).
  split_and!; [reflexivity | exact Hcompletes | exact Hstatus | exact Hbody].
Defined.

Lemma loginUser_rejects_blacklisted_token_witness :
  let E := sample_externals never in
  let req := request_with_body (alice_body "wonderland") in
  @token_for E (to_doc true alice) ∈ blacklist alice_logged_out ∧
  completes (@loginUser_try E) req alice_logged_out ∧
  status_of (serve (@loginUser E) req alice_logged_out) = 401 ∧
  body_of (serve (@loginUser E) req alice_logged_out)
    = Some (JMessage "Token is blacklisted, please login again").
Proof.
  intros E req.
  assert (Hlisted : @token_for E (to_doc true alice) ∈ blacklist alice_logged_out)
    by apply list_elem_of_here.
  assert (Hcompletes : completes (@loginUser_try E) req alice_logged_out) by reflexivity.
  destruct (@loginUser_rejects_blacklisted_token E req (alice_body "wonderland") alice
              alice_logged_out eq_refl eq_refl eq_refl eq_refl Hlisted Hcompletes)
    as [Hstatus Hbody].
  split_and!; [exact Hlisted | exact Hcompletes | exact Hstatus | exact Hbody].
Defined.

Lemma loginUser_after_logoutUser_witness :
  let E := sample_externals never in
  let out := logout_request (Some "jwt.id") None in
  let req := request_with_body (alice_body "wonderland") in
  let d' := db_of (serve (@logoutUser E) out one_user) in
  status_of (serve (@logoutUser E) out one_user) = 200 ∧
  status_of (serve (@loginUser E) req one_user) = 200 ∧
  completes (@loginUser_try E) req d' ∧
  status_of (serve (@loginUser E) req d') = 401.
Proof.
  intros E out req d'.
  assert (Hcompletes : completes (@loginUser_try E) req d') by reflexivity.
  destruct (@loginUser_after_logoutUser E out {[ "token" := "jwt.id" ]} req
              (alice_body "wonderland") alice one_user
              eq_refl eq_refl eq_refl eq_refl eq_refl eq_refl eq_refl Hcompletes)
    as [Hstatus _].
  split_and!; [reflexivity | reflexivity | exact Hcompletes | exact Hstatus].
Defined.

Lemma getUserProfile_after_registerUser_witness :
  let E := sample_externals never in
  let req := request_with_body (alice_body "wonderland") in
  let d' := db_of (serve (@registerUser E) req empty_db) in
  status_of (serve (@registerUser E) req empty_db) = 201 ∧
  completes (@getUserProfile_try E) (profile_request "id") d' ∧
  status_of (serve (@getUserProfile E) (profile_request "id") d') = 200 ∧
  ∃ token user,
    body_of (serve (@registerUser E) req empty_db) = Some (JTokenUser token user) ∧
    body_of (serve (@getUserProfile E) (profile_request "id") d') = Some (JUser user).
Proof.
  intros E req d'.
  assert (Hunused : ∀ u, u ∈ users empty_db → u_id u ≠ @new_id E (users empty_db))
    by (intros u Hin; by apply not_elem_of_nil in Hin).
  assert (Hcompletes : completes (@getUserProfile_try E) (profile_request "id") d')
    by reflexivity.
  destruct (@getUserProfile_after_registerUser E req (profile_request "id") _ empty_db
              eq_refl Hunused eq_refl eq_refl Hcompletes) as [Hstatus Hsame].
  split_and!; [reflexivity | exact Hcompletes | exact Hstatus | exact Hsame].
Defined.

Lemma undefined_request_part_is_500_witness :
  let E := sample_externals never in
  bearer_component (req_headers bare_request) = Some "jwt.id" ∧
  status_of (serve (@logoutUser E) bare_request one_user) = 500 ∧
  status_of (serve (@getUserProfile E) bare_request one_user) = 500 ∧
  status_of (serve (@registerUser E) bare_request one_user) = 500 ∧
  status_of (serve (@loginUser E) bare_request one_user) = 500.
Proof.
  intros E.
  destruct (@undefined_request_part_is_500 E bare_request one_user)
    as (Hlogout & Hprofile & Hbody).
  destruct (Hlogout eq_refl) as [H1 _]. destruct (Hprofile eq_refl) as [H2 _].
  destruct (Hbody eq_refl eq_refl) as [[H3 _] [H4 _]].
  split_and!; [reflexivity | exact H1 | exact H2 | exact H3 | exact H4].
Defined.

Lemma loginUser_signs_only_after_match_witness :
  let E := sample_externals never in
  let req := request_with_body (alice_body "wonderland") in
  CallGenerateAuthToken (to_doc true alice) ∈ log_of (serve (@loginUser E) req one_user) ∧
  ∃ b u, validationResult req = [] ∧
         req_body req = Some b ∧
         stored_user one_user (email b) = Some u ∧
         to_doc true alice = to_doc true u ∧
         @password_matches E (to_doc true alice) (password b) = true.
Proof.
  intros E req.
  assert (Hin : CallGenerateAuthToken (to_doc true alice)
                ∈ log_of (serve (@loginUser E) req one_user))
    by (do 2 apply list_elem_of_further; apply list_elem_of_here).
  split; [exact Hin|].
  exact (@loginUser_signs_only_after_match E req one_user _ Hin).
Defined.

Lemma logoutUser_accepts_any_scheme_witness :
  let E := sample_externals never in
  let req := logout_request None (Some "Basic jwt.id") in
  completes (@logoutUser_try E) req one_user ∧
  status_of (serve (@logoutUser E) req one_user) = 200 ∧
  db_of (serve (@logoutUser E) req one_user) = alice_logged_out.
Proof.
  intros E req.
  assert (Hcompletes : completes (@logoutUser_try E) req one_user) by reflexivity.
  destruct (@logoutUser_accepts_any_scheme E req ∅ "Basic" "jwt.id" one_user
              eq_refl eq_refl eq_refl eq_refl eq_refl ltac:(discriminate) Hcompletes)
    as (Hstatus & Hdb & _).
  split_and!; [exact Hcompletes | exact Hstatus | exact Hdb].
Defined.

Lemma registerUser_race_witness :
  let E := sample_externals never in
  let reqA := request_with_body (alice_body "wonderland") in
  let reqB := request_with_body bob_body in
  let rA := fst (@registerUser_raced E reqA reqB empty_db) in
  let rB := snd (@registerUser_raced E reqA reqB empty_db) in
  unique_emails empty_db ∧
  status_of rA = 201 ∧
  status_of rB = 201 ∧
  u_email <$> users (db_of rB) = ["alice@example.com"; "alice@example.com"] ∧
  ¬ unique_emails (db_of rB).
Proof.
  intros E reqA reqB rA rB.
  destruct (@registerUser_race E reqA reqB (alice_body "wonderland") bob_body empty_db
              (λ _, eq_refl) eq_refl eq_refl eq_refl eq_refl eq_refl eq_refl)
    as (HA & HB & _ & _ & Hbroken).
  split_and!; [apply NoDup_nil_2 | exact HA | exact HB | reflexivity | exact Hbroken].
Defined.

Lemma store_over_time_witness :
  let E := sample_externals never in
  let events := [Served (@registerUser E) (request_with_body (alice_body "wonderland"));
                 Served (@logoutUser E) (logout_request (Some "jwt.id") None);
                 Served (@loginUser E) (request_with_body (alice_body "wonderland"))] in
  store_after events empty_db = alice_logged_out ∧
  store_after (events ++ [Expired (λ _, true)]) empty_db = one_user ∧
  users empty_db `prefix_of` users (store_after events empty_db) ∧
  unique_emails (store_after events empty_db) ∧
  (∀ t, t ∈ blacklist (store_after events empty_db) →
        t ∈ blacklist empty_db ∨ @logged_out E events t) ∧
  blacklist empty_db `prefix_of` blacklist (store_after events empty_db).
Proof.
  intros E events.
  assert (Hevents : Forall (@of_the_controller E) events).
  { repeat apply Forall_cons_2; [| | |apply Forall_nil_2]; simpl.
    - apply list_elem_of_here.
    - do 3 apply list_elem_of_further. apply list_elem_of_here.
    - apply list_elem_of_further, list_elem_of_here. }
  assert (Hnone : Forall (λ ev, is_expiry ev = false) events)
    by (repeat apply Forall_cons_2; [reflexivity..|apply Forall_nil_2]).
  destruct (@store_over_time E events empty_db Hevents)
    as (Husers & Hunique & Hblack & Hprefix).
  split_and!; [reflexivity | reflexivity | exact Husers | | exact Hblack | exact (Hprefix Hnone)].
  apply Hunique. apply NoDup_nil_2.
Defined.
